(** * Chunked de-identification and reload: a model of [main.py]

    The script queries a warehouse table into a staging table, reads the
    staged rows back, sends them in one request to the redaction service,
    and loads the redacted rows into the destination table chunk by chunk.

    The warehouse and the redaction service are external.  The warehouse is
    modelled as a finite map from table identifiers to tables together with
    a chronological trace of the client calls; the redaction service is a
    parameter of the development.  Console output is not modelled. *)

From Stdlib Require Import ZArith Lia Ascii String List Bool DecimalString.
From stdpp Require Import gmap strings list fin_maps.
Import ListNotations.
Set Warnings "-register-all".
Local Open Scope string_scope.
Local Open Scope Z_scope.

(** ** Python values and builtins used by the script *)

(** Exceptions that can end a run. *)
Inductive exn : Type :=
| ValueError
| TypeError
| ZeroDivisionError
| NotFound (table_id : string)
| JobFailed (table_id : string)
| DlpFailure (msg : string).

(** A command-line value: [argparse] yields [None] for an omitted flag and
    a [str] otherwise. *)
Inductive pyarg : Type :=
| PyNone
| PyStr (s : string).

(** Dictionaries, lists and strings as the script builds them for the
    request; a dictionary keeps its keys in insertion order. *)
Inductive pyval : Type :=
| VStr (s : string)
| VList (l : list pyval)
| VDict (kvs : list (string * pyval)).

Fixpoint assoc_get (k : string) (kvs : list (string * pyval)) : option pyval :=
  match kvs with
  | [] => None
  | (k', v) :: rest => if String.eqb k k' then Some v else assoc_get k rest
  end.

(** [d.get(k)] for a dictionary value. *)
Definition dict_get (k : string) (d : pyval) : option pyval :=
  match d with
  | VDict kvs => assoc_get k kvs
  | _ => None
  end.

(** [format(v)] inside an f-string. *)
Definition py_format (v : pyarg) : string :=
  match v with
  | PyNone => "None"
  | PyStr s => s
  end.

(** Characters that [int()] strips from both ends (the ASCII ones). *)
Definition is_space (c : ascii) : bool :=
  let n := nat_of_ascii c in
  ((9 <=? n) && (n <=? 13) || (28 <=? n) && (n <=? 32))%nat.

Definition digit_of (c : ascii) : option Z :=
  let n := nat_of_ascii c in
  if ((48 <=? n) && (n <=? 57))%nat then Some (Z.of_nat (n - 48)) else None.

Fixpoint lstrip (s : list ascii) : list ascii :=
  match s with
  | [] => []
  | c :: s' => if is_space c then lstrip s' else s
  end.

Definition strip (s : list ascii) : list ascii :=
  rev (lstrip (rev (lstrip s))).

(** Decimal digits, single underscores allowed between two digits. *)
Fixpoint parse_digits (s : list ascii) (acc : Z) (after_digit : bool) : option Z :=
  match s with
  | [] => if after_digit then Some acc else None
  | c :: s' =>
      if Ascii.eqb c "_"%char
      then (if after_digit then parse_digits s' acc false else None)
      else match digit_of c with
           | Some d => parse_digits s' (10 * acc + d) true
           | None => None
           end
  end.

Definition parse_int (s : string) : option Z :=
  match strip (list_ascii_of_string s) with
  | c :: ds =>
      if Ascii.eqb c "+"%char then parse_digits ds 0 false
      else if Ascii.eqb c "-"%char then option_map Z.opp (parse_digits ds 0 false)
      else parse_digits (c :: ds) 0 false
  | [] => None
  end.

(** [int(x)]: [TypeError] on [None], [ValueError] on a string that is not
    a base-10 integer literal.  Strings are ASCII here; the interpreter's
    limit on the number of digits is not modelled. *)
Definition py_int (x : pyarg) : exn + Z :=
  match x with
  | PyNone => inl TypeError
  | PyStr s => match parse_int s with
               | Some z => inr z
               | None => inl ValueError
               end
  end.

(** [a // b] on integers: floor division, raising on a zero divisor. *)
Definition py_floordiv (a b : Z) : exn + Z :=
  if b =? 0 then inl ZeroDivisionError else inr (a / b).

(** [range(n)]. *)
Definition py_range (n : Z) : list Z :=
  map Z.of_nat (seq 0 (Z.to_nat n)).

(** Bound normalisation of [l[start:stop]]: a negative bound counts from
    the end, and every bound is clamped to [0 .. len]. *)
Definition slice_index (len i : Z) : Z :=
  if i <? 0 then Z.max (i + len) 0 else Z.min i len.

Definition py_slice {A} (l : list A) (start stop : Z) : list A :=
  let len := Z.of_nat (length l) in
  let lo := slice_index len start in
  let hi := slice_index len stop in
  firstn (Z.to_nat (hi - lo)) (skipn (Z.to_nat lo) l).

(** ** Warehouse data *)

(** A cell of a warehouse row as the client returns it. *)
Inductive cell : Type :=
| CNone
| CBool (b : bool)
| CInt (z : Z)
| CStr (s : string).

(** [str(cell_val)]. *)
Definition py_str (c : cell) : string :=
  match c with
  | CNone => "None"
  | CBool true => "True"
  | CBool false => "False"
  | CInt z => NilZero.string_of_int (Z.to_int z)
  | CStr s => s
  end.

Record Table : Type := mkTable {
  schema : list string;            (* ordered column names *)
  tbl_rows : list (list cell)
}.

(** Every row has one cell per column. *)
Definition wf_table (t : Table) : Prop :=
  Forall (fun r => length r = length (schema t)) (tbl_rows t).

(** ** pandas frames *)

(** A frame: ordered column labels and rows of cells; a missing cell
    (padding of a short row) is [None]. *)
Record DataFrame : Type := mkFrame {
  columns : list string;
  frame_rows : list (list (option string))
}.

Definition max_width (data : list (list string)) : nat :=
  foldr (fun r m => Nat.max (length r) m) 0%nat data.

Definition pad_row (w : nat) (r : list string) : list (option string) :=
  (map Some r ++ replicate (w - length r) None)%list.

(** [pd.DataFrame(data, columns=cols)] for a list of rows: an empty list
    gives an empty frame with the given labels; otherwise the widest row
    must have as many cells as there are labels ([ValueError] if not) and
    shorter rows are padded. *)
Definition pd_DataFrame (data : list (list string)) (cols : list string)
  : exn + DataFrame :=
  match data with
  | [] => inr (mkFrame cols [])
  | _ => if (max_width data =? length cols)%nat
         then inr (mkFrame cols (map (pad_row (length cols)) data))
         else inl ValueError
  end.

(** ** The warehouse client *)

Inductive WriteDisposition : Type :=
| WRITE_TRUNCATE
| WRITE_APPEND
| WRITE_EMPTY.

Record QueryJobConfig : Type := mkQueryJobConfig {
  allow_large_results : bool;
  destination : string;
  write_disposition : WriteDisposition
}.

Record LoadJobConfig : Type := mkLoadJobConfig {
  load_write_disposition : WriteDisposition
}.

(** Client calls, in the order they happen.  A job is submitted by one
    call and waited for by [result()], which is a second event. *)
Inductive Event : Type :=
| EvQuery (source : string) (cfg : QueryJobConfig)
| EvQueryResult (ok : bool)
| EvListRows (table_id : string)
| EvDeidentify (request : pyval)
| EvDeidentifyReturn (ok : bool)
| EvLoad (df : DataFrame) (table_id : string) (cfg : option LoadJobConfig)
| EvLoadResult (ok : bool).

Record World : Type := mkWorld {
  warehouse : gmap string Table;
  trace : list Event
}.

(** State and exceptions: a computation maps a world to the world it
    leaves behind and either the exception raised or its value. *)
Definition M (A : Type) : Type := World -> World * (exn + A).

Definition ret {A} (a : A) : M A := fun w => (w, inr a).

Definition raise {A} (e : exn) : M A := fun w => (w, inl e).

Definition bind {A B} (m : M A) (k : A -> M B) : M B :=
  fun w => match m w with
           | (w', inl e) => (w', inl e)
           | (w', inr a) => k a w'
           end.

Definition lift {A} (r : exn + A) : M A := fun w => (w, r).

Notation "'do' x <- m 'in' k" := (bind m (fun x => k))
  (at level 10, x name, m at level 100, k at level 200).

Definition emit (e : Event) : M unit :=
  fun w => (mkWorld (warehouse w) ((trace w ++ [e])%list), inr tt).

Definition lookup_table (table_id : string) : M (option Table) :=
  fun w => (w, inr (warehouse w !! table_id)).

Definition store_table (table_id : string) (t : Table) : M unit :=
  fun w => (mkWorld (<[table_id := t]> (warehouse w)) (trace w), inr tt).

(** Writing [t] to [table_id] under a write disposition.  [None] is the
    failure of the job: appending to a table with other columns, or
    [WRITE_EMPTY] on a table that has rows. *)
Definition write_result (d : WriteDisposition) (old : option Table) (t : Table)
  : option Table :=
  match d, old with
  | WRITE_TRUNCATE, _ => Some t
  | _, None => Some t
  | WRITE_APPEND, Some o =>
      if decide (schema o = schema t)
      then Some (mkTable (schema o) ((tbl_rows o ++ tbl_rows t)%list))
      else None
  | WRITE_EMPTY, Some o =>
      match tbl_rows o with
      | [] => Some t
      | _ => None
      end
  end.

(** The script's query text is [SELECT * FROM `ref`]; a query is
    represented by the table reference between the backticks. *)
Inductive Query : Type :=
| SelectAllFrom (table_ref : string).

Record QueryJob : Type := mkQueryJob {
  qj_query : Query;
  qj_config : QueryJobConfig
}.

Record LoadJob : Type := mkLoadJob {
  lj_frame : DataFrame;
  lj_table_id : string;
  lj_config : option LoadJobConfig
}.

(** [bq_client.query(query, job_config=job_config)]. *)
Definition bq_query (query : Query) (job_config : QueryJobConfig) : M QueryJob :=
  do _ <- emit (EvQuery (let 'SelectAllFrom r := query in r) job_config) in
  ret (mkQueryJob query job_config).

(** [query_job.result()]: the job runs to completion; its rows replace,
    or are added to, the destination as the write disposition says. *)
Definition query_job_result (job : QueryJob) : M unit :=
  let 'SelectAllFrom source := qj_query job in
  let cfg := qj_config job in
  do src <- lookup_table source in
  match src with
  | None => do _ <- emit (EvQueryResult false) in raise (NotFound source)
  | Some t =>
      do old <- lookup_table (destination cfg) in
      match write_result (write_disposition cfg) old t with
      | Some t' =>
          do _ <- store_table (destination cfg) t' in
          emit (EvQueryResult true)
      | None =>
          do _ <- emit (EvQueryResult false) in
          raise (JobFailed (destination cfg))
      end
  end.

(** [bq_client.list_rows(table_id)]: the schema and the rows of a table. *)
Definition list_rows (table_id : string) : M Table :=
  do _ <- emit (EvListRows table_id) in
  do t <- lookup_table table_id in
  match t with
  | None => raise (NotFound table_id)
  | Some t => ret t
  end.

Definition cell_of_frame (c : option string) : cell :=
  match c with
  | Some s => CStr s
  | None => CNone
  end.

Definition table_of_frame (df : DataFrame) : Table :=
  mkTable (columns df) (map (map cell_of_frame) (frame_rows df)).

(** [bq_client.load_table_from_dataframe(df, table_id, job_config=...)]:
    submits the load job. *)
Definition load_table_from_dataframe
    (df : DataFrame) (table_id : string) (job_config : option LoadJobConfig)
  : M LoadJob :=
  do _ <- emit (EvLoad df table_id job_config) in
  ret (mkLoadJob df table_id job_config).

(** [job.result()] of a load job.  Without a job configuration the load
    appends ([WRITE_APPEND] is the client's default). *)
Definition load_job_result (job : LoadJob) : M unit :=
  let d := match lj_config job with
           | Some cfg => load_write_disposition cfg
           | None => WRITE_APPEND
           end in
  do old <- lookup_table (lj_table_id job) in
  match write_result d old (table_of_frame (lj_frame job)) with
  | Some t' =>
      do _ <- store_table (lj_table_id job) t' in
      emit (EvLoadResult true)
  | None =>
      do _ <- emit (EvLoadResult false) in
      raise (JobFailed (lj_table_id job))
  end.

(** ** The redaction service's response *)

Module dlp_v2.

Record FieldId : Type := mkFieldId { name : string }.

Record Value : Type := mkValue { string_value : string }.

Record Row : Type := mkRow { values : list Value }.

Record Table : Type := mkTable { headers : list FieldId; rows : list Row }.

Record ContentItem : Type := mkContentItem { table : Table }.

Record DeidentifyContentResponse : Type := mkResponse { item : ContentItem }.

End dlp_v2.

(** ** The orchestrator (lines 10-168) *)

(** Line 78: one [{"name": ...}] entry per column of the schema. *)
Definition payload_headers (rows_iter : Table) : list pyval :=
  map (fun column => VDict [("name", VStr column)]) (schema rows_iter).

(** Lines 79-83: one [{"values": [...]}] entry per row, every cell as
    [{"string_value": str(cell_val)}]. *)
Definition payload_rows (rows_iter : Table) : list pyval :=
  map (fun row =>
         VDict [("values",
                 VList (map (fun cell_val =>
                               VDict [("string_value", VStr (py_str cell_val))])
                            row))])
      (tbl_rows rows_iter).

(** Line 85. *)
Definition payload_table (rows_iter : Table) : pyval :=
  VDict [("headers", VList (payload_headers rows_iter));
         ("rows", VList (payload_rows rows_iter))].

(** Lines 97-118: the local [deidentify_config]. *)
Definition inline_deidentify_config (deid_content_list : list pyval) : pyval :=
  VDict [("record_transformations",
    VDict [("field_transformations",
      VList [VDict [
        ("info_type_transformations",
          VDict [("transformations",
            VList [VDict [("primitive_transformation",
              VDict [("replace_config",
                VDict [("new_value",
                  VDict [("string_value", VStr "################")])])])]])]);
        ("fields", VList deid_content_list)]])])].

(** Lines 125-132: the request dictionary passed to the service. *)
Definition deidentify_request (parent : string) (item inspect_config : pyval)
  : pyval :=
  VDict [("parent", VStr parent);
         ("deidentify_config",
           VDict [("deidentify_template_name",
                   VStr "projects/project_id/locations/global/deidentifyTemplates/template_id")]);
         ("item", item);
         ("inspect_config", inspect_config)].

Section Orchestrator.

(** The redaction service: what it answers to a request. *)
Variable service : pyval -> exn + dlp_v2.DeidentifyContentResponse.

(** [dlp.deidentify_content(request=...)]: one synchronous call. *)
Definition deidentify_content (request : pyval)
  : M dlp_v2.DeidentifyContentResponse :=
  do _ <- emit (EvDeidentify request) in
  match service request with
  | inl e => do _ <- emit (EvDeidentifyReturn false) in raise e
  | inr response => do _ <- emit (EvDeidentifyReturn true) in ret response
  end.

(** Lines 144-165: the body of the loop for index [i]; it takes the
    current [deid_data] and returns the one it leaves. *)
Definition chunk_body
    (project dataset output_table : pyarg)
    (response : dlp_v2.DeidentifyContentResponse) (chunk_size : Z)
    (i : Z) (deid_data : list (list string)) : M (list (list string)) :=
  let start_index := i * chunk_size in
  let end_index := start_index + chunk_size in
  let chunk :=
    py_slice (dlp_v2.rows (dlp_v2.table (dlp_v2.item response)))
             start_index end_index in
  let deid_data :=
    (deid_data ++
     map (fun row => map dlp_v2.string_value (dlp_v2.values row)) chunk)%list in
  do chunk_df <-
    lift (pd_DataFrame deid_data
            (map dlp_v2.name
                 (dlp_v2.headers (dlp_v2.table (dlp_v2.item response))))) in
  let table_id :=
    py_format project +:+ "." +:+ py_format dataset +:+ "." +:+
    py_format output_table in
  let job_config := mkLoadJobConfig WRITE_TRUNCATE in
  do job <- load_table_from_dataframe chunk_df table_id None in
  do _ <- load_job_result job in
  let deid_data := [] in
  ret deid_data.

(** Line 143: [for i in range(num_chunks + 1)]. *)
Fixpoint chunk_loop
    (project dataset output_table : pyarg)
    (response : dlp_v2.DeidentifyContentResponse) (chunk_size : Z)
    (indices : list Z) (deid_data : list (list string))
  : M (list (list string)) :=
  match indices with
  | [] => ret deid_data
  | i :: rest =>
      do deid_data <-
        chunk_body project dataset output_table response chunk_size
                   i deid_data in
      chunk_loop project dataset output_table response chunk_size
                 rest deid_data
  end.

(** Lines 139-166: parse the chunk size, count the chunks, load them. *)
Definition reassemble_and_load
    (project dataset output_table chunksize : pyarg)
    (response : dlp_v2.DeidentifyContentResponse) : M unit :=
  let deid_data := [] in
  do chunk_size <- lift (py_int chunksize) in
  do num_chunks <-
    lift (py_floordiv
            (Z.of_nat (length (dlp_v2.rows (dlp_v2.table (dlp_v2.item response)))))
            chunk_size) in
  do _ <- chunk_loop project dataset output_table response chunk_size
                     (py_range (num_chunks + 1)) deid_data in
  ret tt.

Definition deidentify_table_replace_with_info_types
    (project dataset input_table output_table chunksize : pyarg)
    (info_types deid_content_list : list string) : M unit :=
  let query :=
    SelectAllFrom (py_format project +:+ "." +:+ py_format dataset +:+ "." +:+
                   py_format input_table) in
  let table_id := "project_id.dataset_id.table_id" in
  let job_config := mkQueryJobConfig true table_id WRITE_TRUNCATE in
  do query_job <- bq_query query job_config in
  do _ <- query_job_result query_job in
  do rows_iter <- list_rows table_id in
  let table := payload_table rows_iter in
  let item := VDict [("table", table)] in
  let deid_content_list :=
    map (fun _i => VDict [("name", VStr _i)]) deid_content_list in
  let inspect_config :=
    VDict [("info_types",
            VList (map (fun info_type => VDict [("name", VStr info_type)])
                       info_types))] in
  let deidentify_config := inline_deidentify_config deid_content_list in
  let parent := "projects/" +:+ py_format project +:+ "/locations/global" in
  do response <-
    deidentify_content (deidentify_request parent item inspect_config) in
  reassemble_and_load project dataset output_table chunksize response.

(** ** The command line (lines 171-325) *)

(** The parsed arguments: one attribute per declared flag. *)
Record Namespace : Type := mkNamespace {
  project : pyarg;
  dataset : pyarg;
  input_table : pyarg;
  output_table : pyarg;
  chunksize : pyarg
}.

(** Lines 195-317. *)
Definition main_info_types : list string :=
  [
    "ARGENTINA_DNI_NUMBER";
    "AUSTRALIA_DRIVERS_LICENSE_NUMBER";
    "AUSTRALIA_MEDICARE_NUMBER";
    "AUSTRALIA_PASSPORT";
    "AUSTRALIA_TAX_FILE_NUMBER";
    "AUTH_TOKEN";
    "AWS_CREDENTIALS";
    "AZERBAIJAN_PASSPORT";
    "AZURE_AUTH_TOKEN";
    "BELARUS_PASSPORT";
    "BELGIUM_NATIONAL_ID_CARD_NUMBER";
    "BRAZIL_CPF_NUMBER";
    "CANADA_BANK_ACCOUNT";
    "CANADA_BC_PHN";
    "CANADA_DRIVERS_LICENSE_NUMBER";
    "CANADA_OHIP";
    "CANADA_PASSPORT";
    "CANADA_QUEBEC_HIN";
    "CANADA_SOCIAL_INSURANCE_NUMBER";
    "CHILE_CDI_NUMBER";
    "CHINA_PASSPORT";
    "CHINA_RESIDENT_ID_NUMBER";
    "COLOMBIA_CDC_NUMBER";
    "CREDIT_CARD_NUMBER";
    "CREDIT_CARD_TRACK_NUMBER";
    "CROATIA_PERSONAL_ID_NUMBER";
    "DENMARK_CPR_NUMBER";
    "ENCRYPTION_KEY";
    "FINANCIAL_ACCOUNT_NUMBER";
    "FINLAND_NATIONAL_ID_NUMBER";
    "FRANCE_CNI";
    "FRANCE_NIR";
    "FRANCE_PASSPORT";
    "FRANCE_TAX_IDENTIFICATION_NUMBER";
    "GCP_API_KEY";
    "GCP_CREDENTIALS";
    "GERMANY_DRIVERS_LICENSE_NUMBER";
    "GERMANY_IDENTITY_CARD_NUMBER";
    "GERMANY_PASSPORT";
    "GERMANY_SCHUFA_ID";
    "GERMANY_TAXPAYER_IDENTIFICATION_NUMBER";
    "HONG_KONG_ID_NUMBER";
    "ICCID_NUMBER";
    "IMEI_HARDWARE_ID";
    "IMSI_ID";
    "INDIA_AADHAAR_INDIVIDUAL";
    "INDIA_GST_INDIVIDUAL";
    "INDIA_PAN_INDIVIDUAL";
    "INDIA_PASSPORT";
    "INDONESIA_NIK_NUMBER";
    "IRELAND_DRIVING_LICENSE_NUMBER";
    "IRELAND_EIRCODE";
    "IRELAND_PASSPORT";
    "IRELAND_PPSN";
    "ISRAEL_IDENTITY_CARD_NUMBER";
    "ITALY_FISCAL_CODE";
    "JAPAN_BANK_ACCOUNT";
    "JAPAN_DRIVERS_LICENSE_NUMBER";
    "JAPAN_INDIVIDUAL_NUMBER";
    "JAPAN_PASSPORT";
    "KAZAKHSTAN_PASSPORT";
    "KOREA_PASSPORT";
    "KOREA_RRN";
    "MEXICO_CURP_NUMBER";
    "MEXICO_PASSPORT";
    "NETHERLANDS_BSN_NUMBER";
    "NETHERLANDS_PASSPORT";
    "NEW_ZEALAND_IRD_NUMBER";
    "NORWAY_NI_NUMBER";
    "OAUTH_CLIENT_SECRET";
    "PARAGUAY_CIC_NUMBER";
    "PASSPORT";
    "PASSWORD";
    "PERU_DNI_NUMBER";
    "POLAND_NATIONAL_ID_NUMBER";
    "POLAND_PASSPORT";
    "POLAND_PESEL_NUMBER";
    "PORTUGAL_CDC_NUMBER";
    "PORTUGAL_SOCIAL_SECURITY_NUMBER";
    "RUSSIA_PASSPORT";
    "SCOTLAND_COMMUNITY_HEALTH_INDEX_NUMBER";
    "SINGAPORE_NATIONAL_REGISTRATION_ID_NUMBER";
    "SINGAPORE_PASSPORT";
    "SOUTH_AFRICA_ID_NUMBER";
    "SPAIN_CIF_NUMBER";
    "SPAIN_DNI_NUMBER";
    "SPAIN_DRIVERS_LICENSE_NUMBER";
    "SPAIN_NIE_NUMBER";
    "SPAIN_NIF_NUMBER";
    "SPAIN_PASSPORT";
    "SPAIN_SOCIAL_SECURITY_NUMBER";
    "SSL_CERTIFICATE";
    "STORAGE_SIGNED_POLICY_DOCUMENT";
    "STORAGE_SIGNED_URL";
    "SWEDEN_NATIONAL_ID_NUMBER";
    "SWEDEN_PASSPORT";
    "SWITZERLAND_SOCIAL_SECURITY_NUMBER";
    "TAIWAN_PASSPORT";
    "THAILAND_NATIONAL_ID_NUMBER";
    "TURKEY_ID_NUMBER";
    "UK_DRIVERS_LICENSE_NUMBER";
    "UK_ELECTORAL_ROLL_NUMBER";
    "UK_NATIONAL_HEALTH_SERVICE_NUMBER";
    "UK_NATIONAL_INSURANCE_NUMBER";
    "UK_PASSPORT";
    "UK_TAXPAYER_REFERENCE";
    "UKRAINE_PASSPORT";
    "URUGUAY_CDI_NUMBER";
    "US_ADOPTION_TAXPAYER_IDENTIFICATION_NUMBER";
    "US_DEA_NUMBER";
    "US_DRIVERS_LICENSE_NUMBER";
    "US_EMPLOYER_IDENTIFICATION_NUMBER";
    "US_INDIVIDUAL_TAXPAYER_IDENTIFICATION_NUMBER";
    "US_MEDICARE_BENEFICIARY_ID_NUMBER";
    "US_PASSPORT";
    "US_PREPARER_TAXPAYER_IDENTIFICATION_NUMBER";
    "US_SOCIAL_SECURITY_NUMBER";
    "UZBEKISTAN_PASSPORT";
    "VEHICLE_IDENTIFICATION_NUMBER";
    "VENEZUELA_CDI_NUMBER";
    "WEAK_PASSWORD_HASH"
  ].

(** Lines 319-324. *)
Definition main_deid_content_list : list string :=
  ["column_1"; "column_2"; "column_3"; "column_4"].

Definition main (args : Namespace) : M unit :=
  let project := project args in
  let dataset := dataset args in
  let input_table := input_table args in
  let output_table := output_table args in
  let chunksize := chunksize args in
  deidentify_table_replace_with_info_types
    project dataset input_table output_table chunksize
    main_info_types main_deid_content_list.

End Orchestrator.

(** ** Reading a request back, and two concrete services *)

Definition as_list (v : pyval) : list pyval :=
  match v with VList l => l | _ => [] end.

Definition as_str (v : pyval) : string :=
  match v with VStr s => s | _ => "" end.

Definition get (k : string) (d : pyval) : pyval :=
  default (VDict []) (dict_get k d).

(** The column names of [request["item"]["table"]["headers"]]. *)
Definition request_header_names (request : pyval) : list string :=
  map (fun h => as_str (get "name" h))
      (as_list (get "headers" (get "table" (get "item" request)))).

(** The rows of [request["item"]["table"]["rows"]], cell texts only. *)
Definition request_rows (request : pyval) : list (list string) :=
  map (fun r => map (fun c => as_str (get "string_value" c))
                    (as_list (get "values" r)))
      (as_list (get "rows" (get "table" (get "item" request)))).

Definition response_header_names (r : dlp_v2.DeidentifyContentResponse)
  : list string :=
  map dlp_v2.name (dlp_v2.headers (dlp_v2.table (dlp_v2.item r))).

Definition response_rows (r : dlp_v2.DeidentifyContentResponse)
  : list dlp_v2.Row :=
  dlp_v2.rows (dlp_v2.table (dlp_v2.item r)).


(** A service keeps the row count when it answers with as many rows as
    it was sent. *)
Definition returns_as_many_rows
    (service : pyval -> exn + dlp_v2.DeidentifyContentResponse) : Prop :=
  forall request response,
    service request = inr response ->
    length (response_rows response) = length (request_rows request).

(** A service that replaces every cell of the columns named in [fields]
    by the placeholder and returns the table otherwise unchanged. *)
Definition mask_row (fields hdrs : list string) (r : list string)
  : dlp_v2.Row :=
  dlp_v2.mkRow
    (map (fun hc : string * string =>
            dlp_v2.mkValue
              (if bool_decide (hc.1 ∈ fields) then "################" else hc.2))
         (zip hdrs r)).

Definition masking_service (fields : list string) (request : pyval)
  : exn + dlp_v2.DeidentifyContentResponse :=
  let hdrs := request_header_names request in
  inr (dlp_v2.mkResponse (dlp_v2.mkContentItem
         (dlp_v2.mkTable (map dlp_v2.mkFieldId hdrs)
                         (map (mask_row fields hdrs) (request_rows request))))).

(** A service that rejects every request. *)
Definition failing_service (request : pyval)
  : exn + dlp_v2.DeidentifyContentResponse :=
  inl (DlpFailure "request rejected").

(** A small warehouse: a source table of two rows, and a destination
    that already holds one row. *)
Definition people : Table :=
  mkTable ["b"; "a"] [[CStr "Ann"; CInt 7]; [CStr "Bo"; CNone]].

Definition sample_warehouse : gmap string Table :=
  <["p.d.out" := mkTable ["b"; "a"] [[CStr "old"; CStr "row"]]]>
    (<["p.d.people" := people]> ∅).

Definition sample_world : World := mkWorld sample_warehouse [].

Definition sample_args (out size : string) : Namespace :=
  mkNamespace (PyStr "p") (PyStr "d") (PyStr "people") (PyStr out) (PyStr size).

(** Observations on a world. *)
Definition row_count (w : World) (table_id : string) : nat :=
  match warehouse w !! table_id with
  | Some t => length (tbl_rows t)
  | None => 0
  end.

Definition is_load (e : Event) : bool :=
  match e with EvLoad _ _ _ => true | _ => false end.

Definition load_count (tr : list Event) : nat :=
  length (List.filter is_load tr).

(** ** Observations and values used in the statements *)

(** Waits for a load job in a trace. *)
Definition is_load_result (e : Event) : bool :=
  match e with EvLoadResult _ => true | _ => false end.

Definition result_count (tr : list Event) : nat :=
  length (List.filter is_load_result tr).

(** Replays a trace with one bit of state, "a load job is in flight":
    a load may be submitted only when none is in flight, a load result
    settles the one in flight, and any other client call happens only
    while none is in flight.  [None] is a violation. *)
Fixpoint in_flight_after (in_flight : bool) (tr : list Event) : option bool :=
  match tr with
  | [] => Some in_flight
  | e :: tr' =>
      match e with
      | EvLoad _ _ _ => if in_flight then None else in_flight_after true tr'
      | EvLoadResult _ => if in_flight then in_flight_after false tr' else None
      | _ => if in_flight then None else in_flight_after false tr'
      end
  end.

(** Line 62: the value of [table_id] before the loop. *)
Definition staging_id : string := "project_id.dataset_id.table_id".

(** Line 59: the table reference of the query. *)
Definition source_id (project dataset input_table : pyarg) : string :=
  py_format project +:+ "." +:+ py_format dataset +:+ "." +:+
  py_format input_table.

(** Line 157: the value of [table_id] inside the loop. *)
Definition destination_id (project dataset output_table : pyarg) : string :=
  py_format project +:+ "." +:+ py_format dataset +:+ "." +:+
  py_format output_table.

(** The rows of iteration [i], as lists of cell texts. *)
Definition chunk_data (response : dlp_v2.DeidentifyContentResponse)
    (chunk_size i : Z) : list (list string) :=
  map (fun row => map dlp_v2.string_value (dlp_v2.values row))
      (py_slice (response_rows response)
                (i * chunk_size) (i * chunk_size + chunk_size)).

(** The frame of iteration [i] (lines 152-155). *)
Definition chunk_frame (response : dlp_v2.DeidentifyContentResponse)
    (chunk_size i : Z) : exn + DataFrame :=
  pd_DataFrame (chunk_data response chunk_size i)
               (response_header_names response).

Definition rows_of (t : option Table) : nat :=
  match t with
  | Some t => length (tbl_rows t)
  | None => 0
  end.

Arguments write_result : simpl never.

(** What the loop may add to the trace: loads of frames labelled with
    the response's headers into the destination, without a job
    configuration, and their results. *)
Definition loop_event (cols : list string) (dest : string) (e : Event) : Prop :=
  match e with
  | EvLoad df table_id cfg => columns df = cols /\ table_id = dest /\ cfg = None
  | EvLoadResult _ => True
  | _ => False
  end.

(** The request of a run whose staged table is [t]. *)
Definition request_for (project : pyarg) (t : Table) (info_types : list string)
  : pyval :=
  deidentify_request
    ("projects/" +:+ py_format project +:+ "/locations/global")
    (VDict [("table", payload_table t)])
    (VDict [("info_types",
             VList (map (fun info_type => VDict [("name", VStr info_type)])
                        info_types))]).

(** Lines 64-68. *)
Definition staging_config : QueryJobConfig :=
  mkQueryJobConfig true staging_id WRITE_TRUNCATE.

(** The client calls of a run, up to and including the submission of
    the request, when the source table exists and holds [t]. *)
Definition calls_before_answer (src : string) (request : pyval) : list Event :=
  [EvQuery src staging_config; EvQueryResult true; EvListRows staging_id;
   EvDeidentify request].

(** A destination named like the staging table. *)
Definition aliased_warehouse : gmap string Table :=
  <["project_id.dataset_id.table_id" :=
      mkTable ["b"; "a"] [[CStr "old"; CStr "row"]]]>
    (<["project_id.dataset_id.people" := people]> ∅).

Definition aliased_world : World := mkWorld aliased_warehouse [].

Definition aliased_args (size : string) : Namespace :=
  mkNamespace (PyStr "project_id") (PyStr "dataset_id") (PyStr "people")
              (PyStr "table_id") (PyStr size).

(** Calls of the extract and read-back steps. *)
Definition is_staging_call (e : Event) : bool :=
  match e with
  | EvQuery _ _ | EvQueryResult _ | EvListRows _ => true
  | _ => false
  end.

(** The exception a chunk size leads to: the one [int()] raises, or
    [ZeroDivisionError] when it parses to zero; [None] for a chunk size
    the division accepts. *)
Definition rejected_chunksize (chunksize : pyarg) : option exn :=
  match py_int chunksize with
  | inl e => Some e
  | inr 0 => Some ZeroDivisionError
  | inr _ => None
  end.

(** [k] occurs as a key somewhere in [v], at any depth. *)
Fixpoint has_key_deep (k : string) (v : pyval) : bool :=
  match v with
  | VStr _ => false
  | VList l => existsb (has_key_deep k) l
  | VDict kvs =>
      existsb (fun kv => String.eqb k (fst kv) || has_key_deep k (snd kv)) kvs
  end.

(** Line 128. *)
Definition template_name : string :=
  "projects/project_id/locations/global/deidentifyTemplates/template_id".

(** [ceil(n / c)] for [c > 0]. *)
Definition ceil_div (n c : Z) : Z := (n + c - 1) / c.

(** A source table without rows. *)
Definition empty_world : World :=
  mkWorld (<["p.d.people" := mkTable ["b"; "a"] []]> ∅) [].

(** ** Further observations on worlds and traces *)

(** The rows of a table that may be absent. *)
Definition rows_list (t : option Table) : list (list cell) :=
  match t with
  | Some t => tbl_rows t
  | None => []
  end.

(** The calls of loads that went through, one submission and one
    successful wait per frame. *)
Definition load_events (dest : string) (frames : list DataFrame) : list Event :=
  flat_map (fun df => [EvLoad df dest None; EvLoadResult true]) frames.

(** The number of frame rows whose load went through: a submission
    counts when the call after it is a successful wait. *)
Fixpoint committed_rows (tr : list Event) : nat :=
  match tr with
  | [] => 0
  | EvLoad df _ _ :: tr' =>
      match tr' with
      | EvLoadResult true :: _ =>
          (length (frame_rows df) + committed_rows tr')%nat
      | _ => committed_rows tr'
      end
  | _ :: tr' => committed_rows tr'
  end.

Definition is_request (e : Event) : bool :=
  match e with EvDeidentify _ => true | _ => false end.



(** A service whose answer has a second row wider than its headers. *)
Definition ragged_service (request : pyval)
  : exn + dlp_v2.DeidentifyContentResponse :=
  inr (dlp_v2.mkResponse (dlp_v2.mkContentItem
         (dlp_v2.mkTable
            [dlp_v2.mkFieldId "b"; dlp_v2.mkFieldId "a"]
            [dlp_v2.mkRow [dlp_v2.mkValue "x"; dlp_v2.mkValue "y"];
             dlp_v2.mkRow [dlp_v2.mkValue "x"; dlp_v2.mkValue "y";
                           dlp_v2.mkValue "z"]]))).

(** * Properties *)

(** ** The builtins on examples *)

Example py_str_int : py_str (CInt (-42)) = "-42" /\ py_str (CInt 0) = "0".
Proof. split; reflexivity. Qed.

Example parse_int_examples :
  parse_int " 1_000 " = Some 1000 /\ parse_int "-3" = Some (-3) /\
  parse_int "1__0" = None /\ parse_int "abc" = None /\ parse_int "" = None /\
  parse_int "0" = Some 0.
Proof. repeat split; reflexivity. Qed.

Example py_slice_examples :
  py_slice [1;2;3;4;5] 2 4 = [3;4] /\ py_slice [1;2;3;4;5] 4 6 = [5] /\
  py_slice [1;2;3;4;5] 6 8 = [] /\ py_slice [1;2;3] 0 (-2) = [1].
Proof. repeat split; reflexivity. Qed.


(** ** Slices and chunks *)

Lemma slice_index_nonneg (len i : Z) :
  0 <= len -> 0 <= i -> slice_index len i = Z.min i len.
Proof.
  intros _ Hi. unfold slice_index.
  destruct (Z.ltb_spec i 0); [lia | reflexivity].
Qed.

(** With bounds [0 <= a <= b] the slice is [b - a] elements from [a] on. *)
Lemma py_slice_nonneg {A} (l : list A) (a b : Z) :
  0 <= a -> a <= b ->
  py_slice l a b = firstn (Z.to_nat (b - a)) (skipn (Z.to_nat a) l).
Proof.
  intros Ha Hab. unfold py_slice.
  rewrite !slice_index_nonneg by lia.
  destruct (Z.le_gt_cases a (Z.of_nat (length l))) as [Hle | Hgt].
  - rewrite (Z.min_l a) by lia.
    destruct (Z.le_gt_cases b (Z.of_nat (length l))) as [Hb | Hb].
    + rewrite Z.min_l by lia. reflexivity.
    + rewrite Z.min_r by lia.
      rewrite !firstn_all2; [reflexivity | |];
        rewrite length_skipn; lia.
  - rewrite !Z.min_r by lia.
    rewrite !skipn_all2 by lia. now rewrite !firstn_nil.
Qed.

Lemma firstn_add_skipn {A} (l : list A) (a b : nat) :
  firstn (a + b) l = (firstn a l ++ firstn b (skipn a l))%list.
Proof.
  revert l. induction a as [| a IH]; intros l; [reflexivity |].
  destruct l as [| x l]; simpl.
  - now rewrite firstn_nil.
  - now rewrite IH.
Qed.

(** The slices taken by the first [k] iterations, one after the other,
    are the first [k * c] elements. *)
Lemma chunks_concat {A} (l : list A) (c : Z) (k : nat) :
  0 < c ->
  concat (map (fun i => py_slice l (i * c) (i * c + c))
              (map Z.of_nat (seq 0 k)))
  = firstn (k * Z.to_nat c) l.
Proof.
  intros Hc. induction k as [| k IH]; [reflexivity |].
  rewrite seq_S, !map_app, concat_app, IH. simpl.
  rewrite app_nil_r, py_slice_nonneg by lia.
  replace (Z.to_nat (Z.of_nat k * c + c - Z.of_nat k * c)) with (Z.to_nat c)
    by lia.
  replace (Z.to_nat (Z.of_nat k * c)) with (k * Z.to_nat c)%nat by lia.
  rewrite <- firstn_add_skipn. f_equal. lia.
Qed.

(** The iterations of the loop together take every row exactly once. *)
Lemma chunks_cover {A} (l : list A) (c : Z) :
  0 < c ->
  concat (map (fun i => py_slice l (i * c) (i * c + c))
              (py_range (Z.of_nat (length l) / c + 1)))
  = l.
Proof.
  intros Hc. unfold py_range. rewrite chunks_concat by assumption.
  apply firstn_all2.
  pose proof (Z.div_pos (Z.of_nat (length l)) c ltac:(lia) Hc) as Hq.
  pose proof (Z.mul_succ_div_gt (Z.of_nat (length l)) c Hc) as Hgt.
  nia.
Qed.

Lemma py_range_length (n : Z) : length (py_range n) = Z.to_nat n.
Proof. unfold py_range. now rewrite length_map, length_seq. Qed.

(** ** Frames *)

Lemma pd_DataFrame_columns data cols df :
  pd_DataFrame data cols = inr df -> columns df = cols.
Proof.
  unfold pd_DataFrame. destruct data as [| r data].
  - intros [= <-]. reflexivity.
  - destruct (_ =? _)%nat; [intros [= <-]; reflexivity | discriminate].
Qed.

Lemma pd_DataFrame_rows data cols df :
  pd_DataFrame data cols = inr df -> length (frame_rows df) = length data.
Proof.
  unfold pd_DataFrame. destruct data as [| r data].
  - intros [= <-]. reflexivity.
  - destruct (_ =? _)%nat; [intros [= <-] | discriminate].
    simpl. now rewrite length_map.
Qed.

(** ** Loads in the trace *)

Lemma in_flight_after_app (b : bool) (tr1 tr2 : list Event) :
  in_flight_after b (tr1 ++ tr2) =
  match in_flight_after b tr1 with
  | Some b' => in_flight_after b' tr2
  | None => None
  end.
Proof.
  revert b. induction tr1 as [| e tr1 IH]; intros b; [reflexivity |].
  destruct e, b; simpl; auto.
Qed.

Lemma load_count_app (tr1 tr2 : list Event) :
  load_count (tr1 ++ tr2) = (load_count tr1 + load_count tr2)%nat.
Proof. unfold load_count. now rewrite List.filter_app, length_app. Qed.

Lemma result_count_app (tr1 tr2 : list Event) :
  result_count (tr1 ++ tr2) = (result_count tr1 + result_count tr2)%nat.
Proof. unfold result_count. now rewrite List.filter_app, length_app. Qed.

(** In a trace that replays without violation, the loads submitted and
    the loads settled differ exactly by the one in flight. *)
Lemma in_flight_balance (tr : list Event) (b b' : bool) :
  in_flight_after b tr = Some b' ->
  (load_count tr + (if b then 1 else 0) =
   result_count tr + (if b' then 1 else 0))%nat.
Proof.
  revert b. induction tr as [| e tr IH]; intros b H.
  - injection H as <-. reflexivity.
  - destruct e, b; simpl in H; try discriminate;
      apply IH in H; unfold load_count, result_count in *; simpl in *; lia.
Qed.

(** ** The loop *)

Lemma write_result_append_rows old t t' :
  write_result WRITE_APPEND old t = Some t' ->
  length (tbl_rows t') = (rows_of old + length (tbl_rows t))%nat.
Proof.
  unfold write_result. destruct old as [o |]; simpl.
  - destruct (decide (schema o = schema t)); [| discriminate].
    intros [= <-]. simpl. now rewrite length_app.
  - intros [= <-]. reflexivity.
Qed.

Lemma table_of_frame_rows df :
  length (tbl_rows (table_of_frame df)) = length (frame_rows df).
Proof. unfold table_of_frame. simpl. now rewrite length_map. Qed.

Lemma row_count_stored (m : gmap string Table) tr table_id t :
  row_count (mkWorld (<[table_id := t]> m) tr) table_id = length (tbl_rows t).
Proof. unfold row_count. simpl. now rewrite lookup_insert_eq. Qed.

(** One iteration, started with an empty [deid_data]. *)
Lemma chunk_body_eq project dataset output_table response chunk_size i w :
  chunk_body project dataset output_table response chunk_size i [] w =
  let dest := destination_id project dataset output_table in
  match chunk_frame response chunk_size i with
  | inl e => (w, inl e)
  | inr df =>
      match write_result WRITE_APPEND (warehouse w !! dest)
                         (table_of_frame df) with
      | Some t' =>
          (mkWorld (<[dest := t']> (warehouse w))
                   (trace w ++ [EvLoad df dest None; EvLoadResult true]),
           inr [])
      | None =>
          (mkWorld (warehouse w)
                   (trace w ++ [EvLoad df dest None; EvLoadResult false]),
           inl (JobFailed dest))
      end
  end.
Proof.
  unfold chunk_body, chunk_frame, chunk_data, response_header_names,
    response_rows, destination_id, bind, lift. simpl.
  destruct (pd_DataFrame _ _) as [e | df]; [reflexivity |].
  unfold load_table_from_dataframe, load_job_result, bind, emit, ret,
    lookup_table, store_table, raise. simpl.
  destruct (write_result _ _ _) as [t' |]; simpl;
    now rewrite <- app_assoc.
Qed.

Lemma chunk_loop_spec project dataset output_table response chunk_size
    indices w w' r :
  chunk_loop project dataset output_table response chunk_size indices [] w
    = (w', r) ->
  let dest := destination_id project dataset output_table in
  exists evs,
    trace w' = (trace w ++ evs)%list /\
    in_flight_after false evs = Some false /\
    Forall (loop_event (response_header_names response) dest) evs /\
    (forall table_id, table_id <> dest ->
       warehouse w' !! table_id = warehouse w !! table_id) /\
    match r with
    | inr deid_data =>
        deid_data = [] /\
        load_count evs = length indices /\
        row_count w' dest =
          (row_count w dest +
           length (concat (map (chunk_data response chunk_size) indices)))%nat
    | inl _ => (load_count evs <= length indices)%nat
    end.
Proof.
  intros H dest. revert w H.
  induction indices as [| i rest IH]; intros w H.
  - injection H as <- <-. exists []. simpl.
    rewrite app_nil_r. repeat split; auto; lia.
  - simpl in H. unfold bind in H. rewrite chunk_body_eq in H. simpl in H.
    fold dest in H.
    destruct (chunk_frame response chunk_size i) as [e | df] eqn:Hdf.
    + injection H as <- <-. exists []. simpl.
      rewrite app_nil_r. repeat split; auto. unfold load_count. simpl. lia.
    + pose proof (pd_DataFrame_columns _ _ _ Hdf) as Hcols.
      pose proof (pd_DataFrame_rows _ _ _ Hdf) as Hrows.
      destruct (write_result _ _ _) as [t' |] eqn:Hwr.
      * apply IH in H. destruct H as (evs & Htr & Hseq & Hev & Hother & Hres).
        simpl in Htr, Hother.
        exists ([EvLoad df dest None; EvLoadResult true] ++ evs)%list.
        split; [now rewrite Htr, <- app_assoc |].
        split; [exact Hseq |].
        split; [repeat constructor; auto |].
        split.
        { intros id Hid. rewrite Hother by assumption.
          now apply lookup_insert_ne. }
        destruct r as [e | dd].
        { rewrite load_count_app. unfold load_count at 1. simpl. lia. }
        destruct Hres as (-> & Hcount & Hrc). split; [reflexivity |].
        split; [rewrite load_count_app; unfold load_count at 1; simpl; lia |].
        rewrite Hrc, row_count_stored.
        apply write_result_append_rows in Hwr.
        cbn [map concat length].
        rewrite Hwr, table_of_frame_rows, Hrows, length_app.
        unfold row_count, rows_of. fold (chunk_data response chunk_size i).
        lia.
      * injection H as <- <-.
        exists [EvLoad df dest None; EvLoadResult false]. simpl.
        split; [reflexivity |]. split; [reflexivity |].
        split; [repeat constructor; auto |].
        split; [reflexivity |]. unfold load_count. simpl. lia.
Qed.

(** ** The run up to the service's answer *)

Lemma run_eq service project dataset input_table output_table chunksize
    info_types deid_content_list w :
  deidentify_table_replace_with_info_types service
    project dataset input_table output_table chunksize
    info_types deid_content_list w =
  let src := source_id project dataset input_table in
  match warehouse w !! src with
  | None =>
      (mkWorld (warehouse w)
               (trace w ++ [EvQuery src staging_config; EvQueryResult false]),
       inl (NotFound src))
  | Some t =>
      let request := request_for project t info_types in
      let staged := <[staging_id := t]> (warehouse w) in
      match service request with
      | inl e =>
          (mkWorld staged
                   (trace w ++ calls_before_answer src request ++
                    [EvDeidentifyReturn false]),
           inl e)
      | inr response =>
          reassemble_and_load project dataset output_table chunksize response
            (mkWorld staged
                     (trace w ++ calls_before_answer src request ++
                      [EvDeidentifyReturn true]))
      end
  end.
Proof.
  unfold deidentify_table_replace_with_info_types, bq_query, query_job_result,
    list_rows, deidentify_content, bind, emit, ret, raise, lookup_table,
    store_table, source_id, request_for, calls_before_answer, staging_config,
    staging_id.
  cbn [qj_query qj_config warehouse trace destination write_disposition
       fst snd].
  destruct (warehouse w !! _) as [t |] eqn:Hsrc.
  - unfold write_result. cbn [warehouse trace].
    rewrite lookup_insert_eq.
    destruct (service _) as [e | response]; cbn [warehouse trace];
      repeat rewrite <- app_assoc; reflexivity.
  - cbn [warehouse trace]. now rewrite <- app_assoc.
Qed.

Lemma reassemble_and_load_eq project dataset output_table chunksize response w :
  reassemble_and_load project dataset output_table chunksize response w =
  match py_int chunksize with
  | inl e => (w, inl e)
  | inr chunk_size =>
      match py_floordiv (Z.of_nat (length (response_rows response)))
                        chunk_size with
      | inl e => (w, inl e)
      | inr num_chunks =>
          match chunk_loop project dataset output_table response chunk_size
                           (py_range (num_chunks + 1)) [] w with
          | (w', inl e) => (w', inl e)
          | (w', inr _) => (w', inr tt)
          end
      end
  end.
Proof.
  unfold reassemble_and_load, bind, lift, ret, response_rows.
  destruct (py_int chunksize) as [e | chunk_size]; [reflexivity |].
  destruct (py_floordiv _ _) as [e | num_chunks]; [reflexivity |].
  destruct (chunk_loop _ _ _ _ _ _ _ _) as [w' [e | dd]]; reflexivity.
Qed.

(** ** The load phase as a whole *)

Lemma chunk_data_concat response chunk_size indices :
  concat (map (chunk_data response chunk_size) indices) =
  map (fun row => map dlp_v2.string_value (dlp_v2.values row))
      (concat (map (fun i => py_slice (response_rows response)
                                      (i * chunk_size)
                                      (i * chunk_size + chunk_size))
                   indices)).
Proof.
  induction indices as [| i rest IH]; [reflexivity |].
  simpl. rewrite IH, map_app. reflexivity.
Qed.

Lemma reassemble_and_load_spec
    project dataset output_table chunksize response w w' r :
  reassemble_and_load project dataset output_table chunksize response w
    = (w', r) ->
  let dest := destination_id project dataset output_table in
  let N := Z.of_nat (length (response_rows response)) in
  exists evs,
    trace w' = (trace w ++ evs)%list /\
    in_flight_after false evs = Some false /\
    Forall (loop_event (response_header_names response) dest) evs /\
    (forall table_id, table_id <> dest ->
       warehouse w' !! table_id = warehouse w !! table_id) /\
    match r with
    | inr _ =>
        exists chunk_size,
          py_int chunksize = inr chunk_size /\ chunk_size <> 0 /\
          load_count evs = Z.to_nat (N / chunk_size + 1) /\
          (0 < chunk_size ->
           row_count w' dest =
             (row_count w dest + length (response_rows response))%nat)
    | inl e =>
        (py_int chunksize = inl e \/ py_int chunksize = inr 0) ->
        w' = w
    end.
Proof.
  intros H dest N. rewrite reassemble_and_load_eq in H.
  assert (Hnil : exists evs : list Event,
             trace w = (trace w ++ evs)%list /\
             in_flight_after false evs = Some false /\
             Forall (loop_event (response_header_names response) dest) evs /\
             (forall table_id, table_id <> dest ->
                warehouse w !! table_id = warehouse w !! table_id)).
  { exists []. rewrite app_nil_r. repeat split; auto. }
  destruct (py_int chunksize) as [e | chunk_size] eqn:Hint.
  { injection H as <- <-. destruct Hnil as (evs & ? & ? & ? & ?).
    exists evs. repeat split; auto. }
  unfold py_floordiv in H. fold N in H.
  destruct (Z.eqb_spec chunk_size 0) as [Hz | Hnz].
  { injection H as <- <-. destruct Hnil as (evs & ? & ? & ? & ?).
    exists evs. repeat split; auto. }
  destruct (chunk_loop _ _ _ _ _ _ _ _) as [w1 r1] eqn:Hloop.
  apply chunk_loop_spec in Hloop. fold dest in Hloop.
  destruct Hloop as (evs & Htr & Hseq & Hev & Hother & Hres).
  exists evs.
  destruct r1 as [e | dd]; injection H as <- <-.
  - repeat split; auto. intros [[=] | [=]]. congruence.
  - destruct Hres as (_ & Hcount & Hrc).
    repeat split; auto.
    exists chunk_size. rewrite py_range_length in Hcount.
    repeat split; auto.
    intros Hpos. rewrite Hrc. f_equal.
    rewrite chunk_data_concat. unfold N. rewrite chunks_cover by assumption.
    now rewrite length_map.
Qed.

(** ** Every run, case by case *)

Section Runs.

Variable service : pyval -> exn + dlp_v2.DeidentifyContentResponse.
Variables project dataset input_table output_table chunksize : pyarg.
Variables info_types deid_content_list : list string.

(** What a run adds to the trace and does to the warehouse: it stops at
    the query when the source table is missing, at the service's failure
    when the request is rejected, and otherwise goes on to the loads. *)
Lemma run_cases w w' r :
  deidentify_table_replace_with_info_types service
    project dataset input_table output_table chunksize
    info_types deid_content_list w = (w', r) ->
  exists evs,
    trace w' = (trace w ++ evs)%list /\
    match warehouse w !! source_id project dataset input_table with
    | None =>
        evs = [EvQuery (source_id project dataset input_table) staging_config;
               EvQueryResult false] /\
        r = inl (NotFound (source_id project dataset input_table)) /\
        warehouse w' = warehouse w
    | Some t =>
        let request := request_for project t info_types in
        let staged := <[staging_id := t]> (warehouse w) in
        match service request with
        | inl e =>
            evs = (calls_before_answer
                     (source_id project dataset input_table) request ++
                   [EvDeidentifyReturn false])%list /\
            r = inl e /\
            warehouse w' = staged
        | inr response =>
            exists loads,
              evs = (calls_before_answer
                       (source_id project dataset input_table) request ++
                     [EvDeidentifyReturn true] ++ loads)%list /\
              in_flight_after false loads = Some false /\
              Forall (loop_event (response_header_names response)
                                 (destination_id project dataset output_table))
                     loads /\
              (forall table_id,
                 table_id <> destination_id project dataset output_table ->
                 warehouse w' !! table_id = staged !! table_id) /\
              match r with
              | inr _ =>
                  exists chunk_size,
                    py_int chunksize = inr chunk_size /\ chunk_size <> 0 /\
                    load_count loads =
                      Z.to_nat (Z.of_nat (length (response_rows response))
                                / chunk_size + 1) /\
                    (0 < chunk_size ->
                     rows_of (warehouse w' !!
                                destination_id project dataset output_table) =
                       (rows_of (staged !!
                                   destination_id project dataset output_table) +
                        length (response_rows response))%nat)
              | inl e =>
                  (py_int chunksize = inl e \/ py_int chunksize = inr 0) ->
                  loads = [] /\ warehouse w' = staged
              end
        end
    end.
Proof.
  intros H. rewrite run_eq in H. cbv zeta in H |- *.
  destruct (warehouse w !! _) as [t |].
  - destruct (service _) as [e | response].
    + injection H as <- <-. eexists. split; [reflexivity |].
      repeat split.
    + apply reassemble_and_load_spec in H.
      destruct H as (loads & Htr & Hseq & Hev & Hother & Hres).
      cbn [trace warehouse] in Htr, Hother.
      eexists. split; [rewrite Htr, <- !app_assoc; reflexivity |].
      exists loads. repeat split; auto.
      destruct r as [e | []].
      * intros Hbad. specialize (Hres Hbad). subst w'.
        cbn [trace warehouse] in Htr. split; [| reflexivity].
        rewrite <- (app_nil_r (trace w ++ _)) in Htr at 1.
        apply app_inv_head in Htr. now symmetry.
      * destruct Hres as (chunk_size & Hint & Hnz & Hcount & Hrc).
        exists chunk_size. repeat split; auto.
  - injection H as <- <-. eexists. split; [reflexivity |].
    repeat split.
Qed.

End Runs.

(** The only request a run submits is the one built from the staged
    copy of the source table. *)
Lemma submitted_requests
    service project dataset input_table output_table chunksize
    info_types deid_content_list w :
  exists evs,
    trace (fst (deidentify_table_replace_with_info_types service
                  project dataset input_table output_table chunksize
                  info_types deid_content_list w)) = (trace w ++ evs)%list /\
    forall request, In (EvDeidentify request) evs ->
      exists t,
        warehouse w !! source_id project dataset input_table = Some t /\
        request = request_for project t info_types.
Proof.
  destruct (deidentify_table_replace_with_info_types _ _ _ _ _ _ _ _ _)
    as [w' r] eqn:H.
  apply run_cases in H. destruct H as (evs & Htr & Hcase).
  exists evs. split; [exact Htr |].
  intros request Hin.
  destruct (warehouse w !! _) as [t |].
  - exists t. split; [reflexivity |]. cbv zeta in Hcase.
    destruct (service _) as [e | response].
    + destruct Hcase as (-> & _ & _). simpl in Hin.
      destruct Hin as [[=] | [[=] | [[=] | [[=] | [[=] | []]]]]].
      congruence.
    + destruct Hcase as (loads & -> & _ & Hev & _).
      simpl in Hin.
      destruct Hin as [[=] | [[=] | [[=] | [[=] | [[=] | Hin]]]]];
        [congruence |].
      pose proof (proj1 (List.Forall_forall _ _) Hev _ Hin) as Hle.
      contradiction.
  - destruct Hcase as (-> & _ & _). simpl in Hin.
    destruct Hin as [[=] | [[=] | []]].
Qed.

(** ** The staging table (C9) *)

Lemma loop_events_not_staging cols dest evs :
  Forall (loop_event cols dest) evs ->
  Forall (fun e => is_staging_call e = false) evs.
Proof.
  intros H. eapply Forall_impl; [exact H |].
  intros [] He; simpl in *; try reflexivity; contradiction.
Qed.

(** C9.  For every project, dataset and input table, and in every world,
    the query of a run has as destination the literal
    ["project_id.dataset_id.table_id"], and when the query succeeds the
    rows are read back from that same literal identifier; no other query
    or read-back happens in the run. *)
Theorem C9_staging_table_is_fixed_literal
    service project dataset input_table output_table chunksize
    info_types deid_content_list w :
  let w' := fst (deidentify_table_replace_with_info_types service
                   project dataset input_table output_table chunksize
                   info_types deid_content_list w) in
  let q := EvQuery (source_id project dataset input_table)
             (mkQueryJobConfig true "project_id.dataset_id.table_id"
                               WRITE_TRUNCATE) in
  exists evs,
    trace w' = (trace w ++ evs)%list /\
    (evs = [q; EvQueryResult false] \/
     exists rest,
       evs = q :: EvQueryResult true ::
             EvListRows "project_id.dataset_id.table_id" :: rest /\
       Forall (fun e => is_staging_call e = false) rest).
Proof.
  intros w' q. subst w'.
  destruct (deidentify_table_replace_with_info_types _ _ _ _ _ _ _ _ _)
    as [w' r] eqn:H.
  apply run_cases in H. destruct H as (evs & Htr & Hcase).
  exists evs. split; [exact Htr |]. simpl.
  destruct (warehouse w !! _) as [t |].
  - right. cbv zeta in Hcase. destruct (service _) as [e | response].
    + destruct Hcase as (-> & _ & _). eexists. split; [reflexivity |].
      repeat constructor.
    + destruct Hcase as (loads & -> & _ & Hev & _).
      eexists. split; [reflexivity |].
      repeat constructor. eapply loop_events_not_staging, Hev.
  - left. now destruct Hcase as (-> & _ & _).
Qed.

(** ** A failing redaction call (C5) *)

(** With a destination named like the staging table, the rejected run
    has already replaced the destination's content by the query result. *)
Lemma C5_counterexample :
  let args := aliased_args "1" in
  let dest := destination_id (project args) (dataset args) (output_table args) in
  let run := main failing_service args aliased_world in
  snd run = inl (DlpFailure "request rejected") /\
  warehouse aliased_world !! dest =
    Some (mkTable ["b"; "a"] [[CStr "old"; CStr "row"]]) /\
  warehouse (fst run) !! dest = Some people /\
  warehouse (fst run) !! dest <> warehouse aliased_world !! dest.
Proof.
  vm_compute. repeat split; try reflexivity. discriminate.
Qed.

(** C5 (amended).  When the source table exists and the service rejects
    the request, the run ends with the service's exception; it has made
    the staging query, the read-back and the request and no load; the
    only table it has written is the staging table, so a destination
    whose identifier is not the staging literal is as it was. *)
Theorem C5_rejected_request_loads_nothing
    service project dataset input_table output_table chunksize
    info_types deid_content_list w t e :
  warehouse w !! source_id project dataset input_table = Some t ->
  service (request_for project t info_types) = inl e ->
  let run := deidentify_table_replace_with_info_types service
               project dataset input_table output_table chunksize
               info_types deid_content_list w in
  let dest := destination_id project dataset output_table in
  snd run = inl e /\
  (exists evs,
     trace (fst run) = (trace w ++ evs)%list /\
     evs = (calls_before_answer (source_id project dataset input_table)
              (request_for project t info_types) ++
            [EvDeidentifyReturn false])%list /\
     load_count evs = 0%nat) /\
  warehouse (fst run) = <[staging_id := t]> (warehouse w) /\
  (dest <> staging_id ->
   warehouse (fst run) !! dest = warehouse w !! dest).
Proof.
  intros Hsrc Hsvc run dest. subst run.
  rewrite run_eq. cbv zeta. rewrite Hsrc, Hsvc. cbn [fst snd trace warehouse].
  split; [reflexivity |].
  split; [eexists; repeat split |].
  split; [reflexivity |].
  intros Hne. now apply lookup_insert_ne.
Qed.

Lemma C5_witness :
  let args := sample_args "out" "1" in
  let run := main failing_service args sample_world in
  snd run = inl (DlpFailure "request rejected") /\
  load_count (trace (fst run)) = 0%nat /\
  warehouse (fst run) !! "p.d.out" = warehouse sample_world !! "p.d.out".
Proof.
  pose proof (C5_rejected_request_loads_nothing failing_service
                (PyStr "p") (PyStr "d") (PyStr "people") (PyStr "out")
                (PyStr "1") main_info_types main_deid_content_list
                sample_world people (DlpFailure "request rejected")
                ltac:(reflexivity) ltac:(reflexivity))
    as (Hres & (evs & Htr & _ & Hcount) & _ & Hdest).
  split; [exact Hres |]. split.
  - unfold main. cbn [project dataset input_table output_table chunksize
                      sample_args].
    rewrite Htr. exact Hcount.
  - apply Hdest. vm_compute. discriminate.
Defined.

(** ** The chunk size (C10) *)

Example rejected_chunksize_examples :
  rejected_chunksize (PyStr "abc") = Some ValueError /\
  rejected_chunksize (PyStr "1.5") = Some ValueError /\
  rejected_chunksize (PyStr "") = Some ValueError /\
  rejected_chunksize PyNone = Some TypeError /\
  rejected_chunksize (PyStr "0") = Some ZeroDivisionError /\
  rejected_chunksize (PyStr "-0") = Some ZeroDivisionError /\
  rejected_chunksize (PyStr "2") = None.
Proof. repeat split; reflexivity. Qed.




(** ** The request (C6) *)

Lemma existsb_map_false {A B} (f : A -> B) (p : B -> bool) (l : list A) :
  (forall x, p (f x) = false) -> existsb p (map f l) = false.
Proof.
  intros H. induction l as [| x l IH]; [reflexivity |].
  simpl. now rewrite H, IH.
Qed.

(** The inline configuration is recognisable by its keys; the local
    variable holds them, the request does not. *)
Lemma inline_config_has_transformations deid_content_list :
  has_key_deep "record_transformations"
               (inline_deidentify_config deid_content_list) = true /\
  has_key_deep "replace_config"
               (inline_deidentify_config deid_content_list) = true.
Proof. split; reflexivity. Qed.

Lemma request_has_no_transformations project t info_types :
  has_key_deep "record_transformations" (request_for project t info_types)
    = false /\
  has_key_deep "replace_config" (request_for project t info_types) = false /\
  has_key_deep "fields" (request_for project t info_types) = false.
Proof.
  unfold request_for, deidentify_request, payload_table, payload_headers,
    payload_rows.
  repeat split; cbn -[map]; repeat rewrite orb_false_r;
    rewrite !existsb_map_false; try reflexivity;
    intros x; cbn -[map]; try reflexivity;
    rewrite existsb_map_false; reflexivity.
Qed.

(** The request of the sample run has the template reference and no
    inline transformation configuration. *)
Lemma C6_counterexample :
  let request := request_for (PyStr "p") people main_info_types in
  In (EvDeidentify request)
     (trace (fst (main (masking_service ["b"]) (sample_args "out" "1")
                       sample_world))) /\
  dict_get "deidentify_config" request =
    Some (VDict [("deidentify_template_name", VStr template_name)]) /\
  has_key_deep "record_transformations" request = false /\
  has_key_deep "replace_config" request = false.
Proof.
  split; [| repeat split].
  vm_compute. do 3 right. left. reflexivity.
Qed.

(** C6 (amended).  Every request a run submits carries, as its
    [deidentify_config], the named template reference alone: none of the
    keys of the inline transformation configuration occurs anywhere in
    the request, and the list of fields to de-identify has no influence
    on the run at all.  The inline configuration with the placeholder
    ["################"] exists only as a local value. *)
Theorem C6_request_carries_template_only
    service project dataset input_table output_table chunksize
    info_types deid_content_list w :
  let run := deidentify_table_replace_with_info_types service
               project dataset input_table output_table chunksize
               info_types deid_content_list w in
  (exists evs,
     trace (fst run) = (trace w ++ evs)%list /\
     forall request, In (EvDeidentify request) evs ->
       dict_get "deidentify_config" request =
         Some (VDict [("deidentify_template_name", VStr template_name)]) /\
       has_key_deep "record_transformations" request = false /\
       has_key_deep "replace_config" request = false /\
       has_key_deep "fields" request = false) /\
  (forall other_fields,
     deidentify_table_replace_with_info_types service
       project dataset input_table output_table chunksize
       info_types other_fields w = run) /\
  has_key_deep "record_transformations"
    (inline_deidentify_config
       (map (fun _i => VDict [("name", VStr _i)]) deid_content_list)) = true.
Proof.
  intros run. subst run. split; [| split; [| reflexivity]].
  - destruct (submitted_requests service project dataset input_table
                output_table chunksize info_types deid_content_list w)
      as (evs & Htr & Hreq).
    exists evs. split; [exact Htr |].
    intros request Hin. destruct (Hreq _ Hin) as (t & _ & ->).
    split; [reflexivity |]. apply request_has_no_transformations.
  - intros other_fields. now rewrite !run_eq.
Qed.

(** ** The command line (C8) *)

(** C8.  For every parsed command line, [main] calls the orchestrator
    with the five flag values and with two lists that do not depend on
    the arguments: the 121 detector categories and the four field names
    [column_1 .. column_4]; every request a run of [main] submits names
    exactly those 121 categories. *)
Theorem C8_detectors_and_fields_are_constants service args w :
  main service args w =
    deidentify_table_replace_with_info_types service
      (project args) (dataset args) (input_table args) (output_table args)
      (chunksize args) main_info_types main_deid_content_list w /\
  length main_info_types = 121%nat /\
  hd_error main_info_types = Some "ARGENTINA_DNI_NUMBER" /\
  last main_info_types = Some "WEAK_PASSWORD_HASH" /\
  main_deid_content_list = ["column_1"; "column_2"; "column_3"; "column_4"] /\
  exists evs,
    trace (fst (main service args w)) = (trace w ++ evs)%list /\
    forall request, In (EvDeidentify request) evs ->
      dict_get "inspect_config" request =
        Some (VDict [("info_types",
                      VList (map (fun info_type =>
                                    VDict [("name", VStr info_type)])
                                 main_info_types))]).
Proof.
  split; [reflexivity |]. split; [reflexivity |]. split; [reflexivity |].
  split; [reflexivity |]. split; [reflexivity |].
  unfold main.
  destruct (submitted_requests service (project args) (dataset args)
              (input_table args) (output_table args) (chunksize args)
              main_info_types main_deid_content_list w)
    as (evs & Htr & Hreq).
  exists evs. split; [exact Htr |].
  intros request Hin. destruct (Hreq _ Hin) as (t & _ & ->).
  reflexivity.
Qed.

(** ** Sequential loads (C7) *)

(** In a trace that replays to "nothing in flight", every load is
    submitted when all earlier loads have their result, and the call
    right after a submission is the result of that load. *)
Lemma load_submitted_alone pre df table_id cfg post :
  in_flight_after false (pre ++ EvLoad df table_id cfg :: post) = Some false ->
  in_flight_after false pre = Some false /\
  load_count pre = result_count pre /\
  exists ok post',
    post = EvLoadResult ok :: post' /\
    in_flight_after false post' = Some false.
Proof.
  rewrite in_flight_after_app.
  destruct (in_flight_after false pre) as [[|] |] eqn:Hpre;
    simpl; try discriminate.
  intros Hpost. split; [reflexivity |]. split.
  - apply in_flight_balance in Hpre. lia.
  - destruct post as [| e post']; [discriminate |].
    destruct e; simpl in Hpost; try discriminate. eauto.
Qed.

(** C7.  In every run the load jobs are strictly sequential: replaying
    the client calls of the run never finds a load submitted, or any
    other call made, while a load is in flight; whenever a load is
    submitted, every load submitted before it has returned its result,
    and the next client call is the wait for this load's result. *)
Theorem C7_loads_are_sequential
    service project dataset input_table output_table chunksize
    info_types deid_content_list w :
  exists evs,
    trace (fst (deidentify_table_replace_with_info_types service
                  project dataset input_table output_table chunksize
                  info_types deid_content_list w)) = (trace w ++ evs)%list /\
    in_flight_after false evs = Some false /\
    forall pre df table_id cfg post,
      evs = (pre ++ EvLoad df table_id cfg :: post)%list ->
      in_flight_after false pre = Some false /\
      load_count pre = result_count pre /\
      exists ok post',
        post = EvLoadResult ok :: post' /\
        in_flight_after false post' = Some false.
Proof.
  destruct (deidentify_table_replace_with_info_types _ _ _ _ _ _ _ _ _)
    as [w' r] eqn:H.
  apply run_cases in H. destruct H as (evs & Htr & Hcase).
  exists evs. split; [exact Htr |].
  assert (Hseq : in_flight_after false evs = Some false).
  { destruct (warehouse w !! _) as [t |].
    - cbv zeta in Hcase. destruct (service _) as [e | response].
      + now destruct Hcase as (-> & _ & _).
      + destruct Hcase as (loads & -> & Hloads & _).
        rewrite in_flight_after_app. simpl. exact Hloads.
    - now destruct Hcase as (-> & _ & _). }
  split; [exact Hseq |].
  intros pre df table_id cfg post ->.
  now apply load_submitted_alone in Hseq.
Qed.

(** ** The payload (C4) *)

Lemma Forall2_map_graph {A B} (f : A -> B) (l : list A) :
  Forall2 (fun x y => y = f x) l (map f l).
Proof. induction l; constructor; auto. Qed.

Lemma request_for_item project t info_types :
  dict_get "item" (request_for project t info_types) =
  Some (VDict [("table",
                VDict [("headers", VList (payload_headers t));
                       ("rows", VList (payload_rows t))])]).
Proof. reflexivity. Qed.

Lemma request_for_header_names project t info_types :
  request_header_names (request_for project t info_types) = schema t.
Proof.
  unfold request_header_names, request_for, deidentify_request, get,
    payload_table, payload_headers.
  cbn -[map]. rewrite map_map. cbn -[map]. apply map_id.
Qed.

Lemma request_for_rows project t info_types :
  request_rows (request_for project t info_types) =
  map (map py_str) (tbl_rows t).
Proof.
  unfold request_rows, request_for, deidentify_request, get,
    payload_table, payload_rows.
  cbn -[map]. rewrite map_map. apply map_ext. intros row.
  cbn -[map]. rewrite map_map. reflexivity.
Qed.

(** The request is in the trace of every run that finds its source. *)
Lemma request_is_submitted
    service project dataset input_table output_table chunksize
    info_types deid_content_list w t :
  warehouse w !! source_id project dataset input_table = Some t ->
  exists evs,
    trace (fst (deidentify_table_replace_with_info_types service
                  project dataset input_table output_table chunksize
                  info_types deid_content_list w)) = (trace w ++ evs)%list /\
    In (EvDeidentify (request_for project t info_types)) evs.
Proof.
  intros Hsrc.
  destruct (deidentify_table_replace_with_info_types _ _ _ _ _ _ _ _ _)
    as [w' r] eqn:H.
  apply run_cases in H. destruct H as (evs & Htr & Hcase).
  exists evs. split; [exact Htr |].
  rewrite Hsrc in Hcase. cbv zeta in Hcase.
  destruct (service _) as [e | response].
  - destruct Hcase as (-> & _ & _). simpl. auto.
  - destruct Hcase as (loads & -> & _). simpl. auto.
Qed.

(** C4.  When the source table [t], with [H] columns and [R] rows of [H]
    cells each, has been staged, the request that the run submits
    carries under [item.table] exactly [H] header entries, the column
    names in schema order, and exactly [R] row entries in row order,
    each with exactly [H] values, every value being the [str()] of the
    cell at that position. *)
Theorem C4_payload_shape
    service project dataset input_table output_table chunksize
    info_types deid_content_list w t :
  warehouse w !! source_id project dataset input_table = Some t ->
  wf_table t ->
  exists evs request hs rs,
    trace (fst (deidentify_table_replace_with_info_types service
                  project dataset input_table output_table chunksize
                  info_types deid_content_list w)) = (trace w ++ evs)%list /\
    In (EvDeidentify request) evs /\
    dict_get "item" request =
      Some (VDict [("table", VDict [("headers", VList hs);
                                    ("rows", VList rs)])]) /\
    length hs = length (schema t) /\
    Forall2 (fun column h => h = VDict [("name", VStr column)])
            (schema t) hs /\
    length rs = length (tbl_rows t) /\
    Forall2 (fun row r =>
               exists vs,
                 r = VDict [("values", VList vs)] /\
                 length vs = length (schema t) /\
                 Forall2 (fun cell_val v =>
                            v = VDict [("string_value",
                                        VStr (py_str cell_val))])
                         row vs)
            (tbl_rows t) rs.
Proof.
  intros Hsrc Hwf.
  destruct (request_is_submitted service project dataset input_table
              output_table chunksize info_types deid_content_list w t Hsrc)
    as (evs & Htr & Hin).
  exists evs, (request_for project t info_types),
    (payload_headers t), (payload_rows t).
  split; [exact Htr |]. split; [exact Hin |].
  split; [apply request_for_item |].
  unfold payload_headers, payload_rows.
  split; [apply length_map |].
  split; [apply Forall2_map_graph |].
  split; [apply length_map |].
  unfold wf_table in Hwf.
  induction Hwf as [| row rows Hrow Hrows IH]; constructor; [| exact IH].
  eexists. split; [reflexivity |].
  split; [now rewrite length_map |]. apply Forall2_map_graph.
Qed.

Lemma C4_witness :
  wf_table people /\
  exists evs request hs rs,
    trace (fst (main (masking_service ["b"]) (sample_args "out" "1")
                     sample_world)) = (trace sample_world ++ evs)%list /\
    In (EvDeidentify request) evs /\
    dict_get "item" request =
      Some (VDict [("table", VDict [("headers", VList hs);
                                    ("rows", VList rs)])]) /\
    length hs = 2%nat /\ length rs = 2%nat.
Proof.
  assert (Hwf : wf_table people) by (repeat constructor).
  split; [exact Hwf |].
  destruct (C4_payload_shape (masking_service ["b"])
              (PyStr "p") (PyStr "d") (PyStr "people") (PyStr "out")
              (PyStr "1") main_info_types main_deid_content_list
              sample_world people ltac:(reflexivity) Hwf)
    as (evs & request & hs & rs & Htr & Hin & Hitem & Hhs & _ & Hrs & _).
  exists evs, request, hs, rs. repeat split; assumption.
Defined.

(** ** Header order (C3) *)





(** ** Rows in the destination (C2) *)



Lemma masking_service_returns_rows fields :
  returns_as_many_rows (masking_service fields).
Proof.
  intros request response [= <-]. unfold response_rows. simpl.
  now rewrite length_map.
Qed.


(** ** The number of loads (C1) *)

(** The iteration count [n // c + 1] against the ceiling: one more than
    the ceiling exactly when [c] divides [n]. *)
Lemma iterations_vs_ceiling (n c : Z) :
  0 <= n -> 0 < c ->
  n / c + 1 = ceil_div n c + (if n mod c =? 0 then 1 else 0).
Proof.
  intros Hn Hc. unfold ceil_div.
  pose proof (Z.div_mod n c ltac:(lia)) as Hdm.
  pose proof (Z.mod_pos_bound n c Hc) as Hb.
  destruct (Z.eqb_spec (n mod c) 0) as [H0 | Hne].
  - replace (n + c - 1) with ((c - 1) + (n / c) * c) by lia.
    rewrite Z.div_add by lia. rewrite (Z.div_small (c - 1) c) by lia. lia.
  - replace (n + c - 1) with ((n mod c - 1) + (n / c + 1) * c) by lia.
    rewrite Z.div_add by lia.
    rewrite (Z.div_small (n mod c - 1) c) by lia. lia.
Qed.

(** A run that succeeds has submitted [N // C + 1] loads, [N] being the
    number of rows of the response and [C] the chunk size. *)
Lemma successful_run_load_count
    service project dataset input_table output_table chunksize
    info_types deid_content_list w w' t chunk_size :
  warehouse w !! source_id project dataset input_table = Some t ->
  py_int chunksize = inr chunk_size ->
  deidentify_table_replace_with_info_types service
    project dataset input_table output_table chunksize
    info_types deid_content_list w = (w', inr tt) ->
  exists response evs,
    service (request_for project t info_types) = inr response /\
    trace w' = (trace w ++ evs)%list /\
    Z.of_nat (load_count evs) =
      Z.max 0 (Z.of_nat (length (response_rows response)) / chunk_size + 1).
Proof.
  intros Hsrc Hint Hrun.
  apply run_cases in Hrun. destruct Hrun as (evs & Htr & Hcase).
  rewrite Hsrc in Hcase. cbv zeta in Hcase.
  destruct (service _) as [e | response] eqn:Hresp.
  { now destruct Hcase as (_ & [=] & _). }
  destruct Hcase as (loads & -> & _ & _ & _ & c & Hc & _ & Hcount & _).
  rewrite Hint in Hc. injection Hc as <-.
  exists response. eexists. split; [reflexivity |]. split; [exact Htr |].
  rewrite load_count_app. unfold calls_before_answer.
  rewrite load_count_app, Hcount. unfold load_count. simpl. lia.
Qed.

(** C1 (fails on the code).  With two redacted rows and chunk size 1 the
    run submits three loads, the third of an empty frame, where
    [ceil(2 / 1)] is two; with no redacted row it submits one load where
    [ceil(0 / 1)] is zero. *)
Theorem C1_one_load_beyond_the_ceiling :
  let run := main (masking_service ["b"]) (sample_args "out" "1")
                  sample_world in
  let run0 := main (masking_service ["b"]) (sample_args "out" "1")
                   empty_world in
  snd run = inr tt /\
  load_count (trace (fst run)) = 3%nat /\
  ceil_div 2 1 = 2 /\
  last (trace (fst run)) = Some (EvLoadResult true) /\
  In (EvLoad (mkFrame ["b"; "a"] []) "p.d.out" None) (trace (fst run)) /\
  snd run0 = inr tt /\
  load_count (trace (fst run0)) = 1%nat /\
  ceil_div 0 1 = 0.
Proof.
  vm_compute. repeat split; try reflexivity.
  do 9 right. left. reflexivity.
Qed.

(** ** The loop, frame by frame *)


Lemma write_result_append_content old t t' :
  write_result WRITE_APPEND old t = Some t' ->
  tbl_rows t' = (rows_list old ++ tbl_rows t)%list.
Proof.
  unfold write_result. destruct old as [o |]; simpl.
  - destruct (decide (schema o = schema t)); [| discriminate].
    intros [= <-]. reflexivity.
  - intros [= <-]. reflexivity.
Qed.

Lemma rows_list_stored (m : gmap string Table) table_id t :
  rows_list (<[table_id := t]> m !! table_id) = tbl_rows t.
Proof. now rewrite lookup_insert_eq. Qed.

(** The loop loads the frames of its indices in order until one step
    fails; what it has loaded by then stays in the destination. *)
Lemma chunk_loop_trace project dataset output_table response chunk_size
    indices w w' r :
  chunk_loop project dataset output_table response chunk_size indices [] w
    = (w', r) ->
  let dest := destination_id project dataset output_table in
  exists frames failed,
    trace w' = (trace w ++ load_events dest frames ++ failed)%list /\
    Forall2 (fun i df => chunk_frame response chunk_size i = inr df)
            (firstn (length frames) indices) frames /\
    rows_list (warehouse w' !! dest) =
      (rows_list (warehouse w !! dest) ++
       concat (map (fun df => tbl_rows (table_of_frame df)) frames))%list /\
    (forall table_id, table_id <> dest ->
       warehouse w' !! table_id = warehouse w !! table_id) /\
    match r with
    | inr _ => length frames = length indices /\ failed = []
    | inl e =>
        (length frames < length indices)%nat /\
        (failed = [] \/
         exists df i,
           failed = [EvLoad df dest None; EvLoadResult false] /\
           e = JobFailed dest /\
           In i indices /\
           chunk_frame response chunk_size i = inr df)
    end.
Proof.
  intros H dest. revert w H.
  induction indices as [| i rest IH]; intros w H.
  - injection H as <- <-. exists [], []. simpl.
    rewrite !app_nil_r. repeat split; auto.
  - simpl in H. unfold bind in H. rewrite chunk_body_eq in H. simpl in H.
    fold dest in H.
    destruct (chunk_frame response chunk_size i) as [e | df] eqn:Hdf.
    + injection H as <- <-. exists [], []. simpl.
      rewrite !app_nil_r. repeat split; auto. lia.
    + destruct (write_result _ _ _) as [t' |] eqn:Hwr.
      * apply IH in H.
        destruct H as (frames & failed & Htr & Hfr & Hrows & Hother & Hres).
        simpl in Htr, Hrows, Hother.
        exists (df :: frames), failed.
        split; [rewrite Htr; simpl; now rewrite <- !app_assoc |].
        split; [simpl; constructor; assumption |].
        split.
        { rewrite Hrows, rows_list_stored.
          rewrite (write_result_append_content _ _ _ Hwr).
          simpl. now rewrite <- app_assoc. }
        split.
        { intros id Hid. rewrite Hother by assumption.
          now apply lookup_insert_ne. }
        destruct r as [e | dd]; simpl.
        { destruct Hres as [Hlt Hfail]. split; [lia |].
          destruct Hfail as [-> | (df' & i' & -> & -> & Hi' & Hdf')];
            [now left | right].
          exists df', i'. simpl. auto. }
        destruct Hres as [Hlen ->]. split; [lia | reflexivity].
      * injection H as <- <-.
        exists [], [EvLoad df dest None; EvLoadResult false]. simpl.
        rewrite app_nil_r. repeat split; auto; [lia |]. right.
        exists df, i. simpl. auto.
Qed.

(** A run that finds its source table, case by case down to the
    frames it loads. *)
Lemma run_outcome
    service project dataset input_table output_table chunksize
    info_types deid_content_list w t :
  warehouse w !! source_id project dataset input_table = Some t ->
  let src := source_id project dataset input_table in
  let dest := destination_id project dataset output_table in
  let request := request_for project t info_types in
  let staged := <[staging_id := t]> (warehouse w) in
  let run := deidentify_table_replace_with_info_types service
               project dataset input_table output_table chunksize
               info_types deid_content_list w in
  match service request with
  | inl e =>
      run = (mkWorld staged
               (trace w ++ calls_before_answer src request ++
                [EvDeidentifyReturn false]), inl e)
  | inr response =>
      let answered :=
        mkWorld staged
          (trace w ++ calls_before_answer src request ++
           [EvDeidentifyReturn true]) in
      match py_int chunksize with
      | inl e => run = (answered, inl e)
      | inr chunk_size =>
          if chunk_size =? 0 then run = (answered, inl ZeroDivisionError)
          else
            let indices :=
              py_range (Z.of_nat (length (response_rows response))
                        / chunk_size + 1) in
            exists frames failed,
              trace (fst run) =
                (trace answered ++ load_events dest frames ++ failed)%list /\
              Forall2 (fun i df => chunk_frame response chunk_size i = inr df)
                      (firstn (length frames) indices) frames /\
              rows_list (warehouse (fst run) !! dest) =
                (rows_list (staged !! dest) ++
                 concat (map (fun df => tbl_rows (table_of_frame df))
                             frames))%list /\
              (forall table_id, table_id <> dest ->
                 warehouse (fst run) !! table_id = staged !! table_id) /\
              match snd run with
              | inr _ => length frames = length indices /\ failed = []
              | inl e =>
                  (length frames < length indices)%nat /\
                  (failed = [] \/
                   exists df i,
                     failed = [EvLoad df dest None; EvLoadResult false] /\
                     e = JobFailed dest /\
                     In i indices /\
                     chunk_frame response chunk_size i = inr df)
              end
      end
  end.
Proof.
  intros Hsrc src dest request staged run. subst run.
  rewrite run_eq. cbv zeta. rewrite Hsrc. fold src request staged.
  destruct (service request) as [e | response]; [reflexivity |].
  rewrite reassemble_and_load_eq.
  destruct (py_int chunksize) as [e | chunk_size]; [reflexivity |].
  unfold py_floordiv.
  destruct (chunk_size =? 0); [reflexivity |].
  destruct (chunk_loop _ _ _ _ _ _ _ _) as [w' r] eqn:Hloop.
  apply chunk_loop_trace in Hloop. fold dest in Hloop.
  destruct Hloop as (frames & failed & Htr & Hfr & Hrows & Hother & Hres).
  exists frames, failed.
  destruct r as [e | dd]; cbn [fst snd]; repeat split; auto;
    try apply Hres.
Qed.

(** ** A missing source table *)

(** X1.  When the table named by project, dataset and input table does
    not exist, the run ends at the wait for the query job with the
    job's failure: no rows are read back, no request is submitted, no
    load is made and no table is written. *)
Theorem X1_missing_source_stops_at_query
    service project dataset input_table output_table chunksize
    info_types deid_content_list w :
  warehouse w !! source_id project dataset input_table = None ->
  deidentify_table_replace_with_info_types service
    project dataset input_table output_table chunksize
    info_types deid_content_list w =
  (mkWorld (warehouse w)
     (trace w ++ [EvQuery (source_id project dataset input_table)
                          staging_config;
                  EvQueryResult false]),
   inl (NotFound (source_id project dataset input_table))).
Proof.
  intros Hsrc. rewrite run_eq. cbv zeta. now rewrite Hsrc.
Qed.

Lemma X1_witness :
  main (masking_service ["b"])
       (mkNamespace (PyStr "p") (PyStr "d") (PyStr "absent") (PyStr "out")
                    (PyStr "1"))
       sample_world =
  (mkWorld sample_warehouse
     [EvQuery "p.d.absent" staging_config; EvQueryResult false],
   inl (NotFound "p.d.absent")).
Proof.
  exact (X1_missing_source_stops_at_query (masking_service ["b"])
           (PyStr "p") (PyStr "d") (PyStr "absent") (PyStr "out")
           (PyStr "1") main_info_types main_deid_content_list
           sample_world eq_refl).
Defined.

(** ** The tables a run writes *)

(** X2.  A run writes no table but the staging table and the
    destination: every table under another identifier, the source
    included, is after the run what it was before, whether the run
    succeeds or fails. *)
Theorem X2_other_tables_untouched
    service project dataset input_table output_table chunksize
    info_types deid_content_list w table_id :
  table_id <> staging_id ->
  table_id <> destination_id project dataset output_table ->
  warehouse (fst (deidentify_table_replace_with_info_types service
                    project dataset input_table output_table chunksize
                    info_types deid_content_list w)) !! table_id
  = warehouse w !! table_id.
Proof.
  intros Hstg Hdest.
  destruct (deidentify_table_replace_with_info_types _ _ _ _ _ _ _ _ _)
    as [w' r] eqn:H.
  apply run_cases in H. destruct H as (evs & _ & Hcase). cbn [fst].
  destruct (warehouse w !! source_id _ _ _) as [t |].
  - cbv zeta in Hcase. destruct (service _) as [e | response].
    + destruct Hcase as (_ & _ & ->). now apply lookup_insert_ne.
    + destruct Hcase as (loads & _ & _ & _ & Hother & _).
      rewrite Hother by assumption. now apply lookup_insert_ne.
  - destruct Hcase as (_ & _ & ->). reflexivity.
Qed.

Lemma X2_witness :
  warehouse (fst (main (masking_service ["b"]) (sample_args "out" "1")
                       sample_world)) !! "p.d.people"
  = Some people.
Proof.
  exact (X2_other_tables_untouched (masking_service ["b"])
           (PyStr "p") (PyStr "d") (PyStr "people") (PyStr "out")
           (PyStr "1") main_info_types main_deid_content_list
           sample_world "p.d.people"
           ltac:(vm_compute; discriminate) ltac:(vm_compute; discriminate)).
Defined.

(** X3.  Once the query has run, the table under the staging literal
    holds the source table as it is, columns and unredacted cells, and
    unless the destination is named like the staging table it still
    does when the run ends, however the run ends. *)
Theorem X3_staging_keeps_unredacted_copy
    service project dataset input_table output_table chunksize
    info_types deid_content_list w t :
  warehouse w !! source_id project dataset input_table = Some t ->
  destination_id project dataset output_table <> staging_id ->
  warehouse (fst (deidentify_table_replace_with_info_types service
                    project dataset input_table output_table chunksize
                    info_types deid_content_list w)) !! staging_id
  = Some t.
Proof.
  intros Hsrc Hne.
  destruct (deidentify_table_replace_with_info_types _ _ _ _ _ _ _ _ _)
    as [w' r] eqn:H.
  apply run_cases in H. destruct H as (evs & _ & Hcase). cbn [fst].
  rewrite Hsrc in Hcase. cbv zeta in Hcase.
  destruct (service _) as [e | response].
  - destruct Hcase as (_ & _ & ->). apply lookup_insert_eq.
  - destruct Hcase as (loads & _ & _ & _ & Hother & _).
    rewrite Hother by congruence. apply lookup_insert_eq.
Qed.

Lemma X3_witness :
  warehouse sample_world !! staging_id = None /\
  warehouse (fst (main (masking_service ["b"]) (sample_args "out" "1")
                       sample_world)) !! staging_id
  = Some people.
Proof.
  split; [reflexivity |].
  exact (X3_staging_keeps_unredacted_copy (masking_service ["b"])
           (PyStr "p") (PyStr "d") (PyStr "people") (PyStr "out")
           (PyStr "1") main_info_types main_deid_content_list
           sample_world people eq_refl ltac:(vm_compute; discriminate)).
Defined.

(** ** One request for the whole table *)

Lemma loop_events_no_request cols dest evs :
  Forall (loop_event cols dest) evs -> List.filter is_request evs = [].
Proof.
  induction 1 as [| e evs He _ IH]; [reflexivity |].
  destruct e; simpl in *; try contradiction; exact IH.
Qed.

(** X4.  A run calls the redaction service at most once, whatever the
    chunk size: not at all when the source table is missing, and
    otherwise exactly once, with a request that carries every row of
    the staged table. *)
Theorem X4_one_request_with_every_row
    service project dataset input_table output_table chunksize
    info_types deid_content_list w :
  exists evs,
    trace (fst (deidentify_table_replace_with_info_types service
                  project dataset input_table output_table chunksize
                  info_types deid_content_list w)) = (trace w ++ evs)%list /\
    match warehouse w !! source_id project dataset input_table with
    | None => List.filter is_request evs = []
    | Some t =>
        exists request,
          List.filter is_request evs = [EvDeidentify request] /\
          request_header_names request = schema t /\
          request_rows request = map (map py_str) (tbl_rows t)
    end.
Proof.
  destruct (deidentify_table_replace_with_info_types _ _ _ _ _ _ _ _ _)
    as [w' r] eqn:H.
  apply run_cases in H. destruct H as (evs & Htr & Hcase).
  exists evs. split; [exact Htr |].
  destruct (warehouse w !! source_id _ _ _) as [t |].
  - exists (request_for project t info_types). cbv zeta in Hcase.
    split; [| split; [apply request_for_header_names
                     | apply request_for_rows]].
    destruct (service _) as [e | response].
    + now destruct Hcase as (-> & _ & _).
    + destruct Hcase as (loads & -> & _ & Hev & _).
      rewrite !List.filter_app, (loop_events_no_request _ _ _ Hev).
      reflexivity.
  - now destruct Hcase as (-> & _ & _).
Qed.

(** ** The size of a chunk *)

Lemma py_range_nonneg n i : In i (py_range n) -> 0 <= i.
Proof.
  unfold py_range. rewrite in_map_iff. intros (k & <- & _). lia.
Qed.

Lemma In_load_events dest frames df table_id cfg :
  In (EvLoad df table_id cfg) (load_events dest frames) ->
  In df frames /\ table_id = dest /\ cfg = None.
Proof.
  unfold load_events. rewrite in_flat_map.
  intros (df' & Hin & Hev). simpl in Hev.
  destruct Hev as [[= -> -> ->] | [[=] | []]]. auto.
Qed.

Lemma Forall2_In_right {A B} (P : A -> B -> Prop) l1 l2 y :
  Forall2 P l1 l2 -> In y l2 -> exists x, In x l1 /\ P x y.
Proof.
  induction 1 as [| x y' l1 l2 Hxy _ IH]; simpl; [contradiction |].
  intros [-> | Hin]; [eauto |].
  destruct (IH Hin) as (x' & Hx' & Hp). eauto.
Qed.

Lemma In_firstn {A} (n : nat) (l : list A) x : In x (firstn n l) -> In x l.
Proof.
  revert n. induction l as [| a l IH]; intros [| n]; simpl; try contradiction.
  intros [-> | Hin]; eauto.
Qed.

Lemma chunk_frame_rows_bound response chunk_size i df :
  0 <= i -> 0 < chunk_size ->
  chunk_frame response chunk_size i = inr df ->
  (length (frame_rows df) <= Z.to_nat chunk_size)%nat.
Proof.
  intros Hi Hc Hdf. apply pd_DataFrame_rows in Hdf. rewrite Hdf.
  unfold chunk_data. rewrite length_map, py_slice_nonneg by nia.
  rewrite length_firstn. lia.
Qed.

(** X5.  With a chunk size [C > 0], no frame that a run loads has more
    than [C] rows. *)
Theorem X5_frames_hold_at_most_chunk_size_rows
    service project dataset input_table output_table chunksize
    info_types deid_content_list w chunk_size :
  py_int chunksize = inr chunk_size ->
  0 < chunk_size ->
  exists evs,
    trace (fst (deidentify_table_replace_with_info_types service
                  project dataset input_table output_table chunksize
                  info_types deid_content_list w)) = (trace w ++ evs)%list /\
    forall df table_id cfg,
      In (EvLoad df table_id cfg) evs ->
      (length (frame_rows df) <= Z.to_nat chunk_size)%nat.
Proof.
  intros Hint Hpos.
  destruct (warehouse w !! source_id project dataset input_table)
    as [t |] eqn:Hsrc.
  - pose proof (run_outcome service project dataset input_table output_table
                  chunksize info_types deid_content_list w t Hsrc) as Hout.
    cbv zeta in Hout. rewrite Hint in Hout.
    destruct (service _) as [e | response].
    + rewrite Hout. eexists. split; [reflexivity |].
      intros df id cfg Hin. simpl in Hin.
      destruct Hin as [[=] | [[=] | [[=] | [[=] | [[=] | []]]]]].
    + destruct (Z.eqb_spec chunk_size 0) as [-> | _]; [lia |].
      destruct Hout as (frames & failed & Htr & Hfr & _ & _ & Hres).
      cbn [trace] in Htr. rewrite <- app_assoc in Htr.
      eexists. split; [exact Htr |].
      intros df id cfg Hin.
      rewrite !in_app_iff in Hin.
      destruct Hin as [[Hin | Hin] | [Hin | Hin]].
      * simpl in Hin. destruct Hin as [[=] | [[=] | [[=] | [[=] | []]]]].
      * simpl in Hin. destruct Hin as [[=] | []].
      * apply In_load_events in Hin. destruct Hin as (Hin & _ & _).
        destruct (Forall2_In_right _ _ _ _ Hfr Hin) as (i & Hi & Hdf).
        apply In_firstn, py_range_nonneg in Hi.
        eapply chunk_frame_rows_bound; eauto.
      * destruct (snd _) as [e | u].
        { destruct Hres as (_ & [-> | (df' & i & -> & _ & Hi & Hdf)]);
            [contradiction |].
          simpl in Hin. destruct Hin as [[= <- _ _] | [[=] | []]].
          apply py_range_nonneg in Hi.
          eapply chunk_frame_rows_bound; eauto. }
        destruct Hres as (_ & ->). contradiction.
  - rewrite run_eq. cbv zeta. rewrite Hsrc. cbn [fst trace].
    eexists. split; [reflexivity |].
    intros df id cfg [[=] | [[=] | []]].
Qed.

Lemma X5_witness :
  exists evs,
    trace (fst (main (masking_service ["b"]) (sample_args "out" "1")
                     sample_world)) = (trace sample_world ++ evs)%list /\
    forall df table_id cfg,
      In (EvLoad df table_id cfg) evs ->
      (length (frame_rows df) <= 1)%nat.
Proof.
  exact (X5_frames_hold_at_most_chunk_size_rows (masking_service ["b"])
           (PyStr "p") (PyStr "d") (PyStr "people") (PyStr "out")
           (PyStr "1") main_info_types main_deid_content_list
           sample_world 1 eq_refl ltac:(lia)).
Defined.

(** ** A negative chunk size *)



(** ** What arrives in the destination *)






(** ** How many loads *)

(** X8.  A run that succeeds with chunk size [C > 0] on a response of
    [N] rows has submitted [ceil(N / C)] loads when [C] does not divide
    [N], and one more than that when it does. *)
Theorem X8_load_count_against_ceiling
    service project dataset input_table output_table chunksize
    info_types deid_content_list w w' t response chunk_size :
  warehouse w !! source_id project dataset input_table = Some t ->
  service (request_for project t info_types) = inr response ->
  py_int chunksize = inr chunk_size ->
  0 < chunk_size ->
  deidentify_table_replace_with_info_types service
    project dataset input_table output_table chunksize
    info_types deid_content_list w = (w', inr tt) ->
  let N := Z.of_nat (length (response_rows response)) in
  exists evs,
    trace w' = (trace w ++ evs)%list /\
    Z.of_nat (load_count evs) =
      ceil_div N chunk_size + (if N mod chunk_size =? 0 then 1 else 0).
Proof.
  intros Hsrc Hsvc Hint Hpos Hrun N.
  destruct (successful_run_load_count service project dataset input_table
              output_table chunksize info_types deid_content_list
              w w' t chunk_size Hsrc Hint Hrun)
    as (response' & evs & Hsvc' & Htr & Hcount).
  rewrite Hsvc in Hsvc'. injection Hsvc' as <-.
  exists evs. split; [exact Htr |].
  rewrite Hcount. fold N.
  rewrite <- iterations_vs_ceiling by lia.
  pose proof (Z.div_pos N chunk_size ltac:(lia) Hpos). lia.
Qed.

Lemma X8_witness :
  exists evs,
    trace (fst (main (masking_service ["b"]) (sample_args "out" "3")
                     sample_world)) = (trace sample_world ++ evs)%list /\
    Z.of_nat (load_count evs) = 1.
Proof.
  destruct (main (masking_service ["b"]) (sample_args "out" "3") sample_world)
    as [w' r] eqn:Hrun.
  assert (Hr : r = inr tt).
  { change r with (snd (w', r)). rewrite <- Hrun. vm_compute. reflexivity. }
  subst r.
  exact (X8_load_count_against_ceiling (masking_service ["b"])
           (PyStr "p") (PyStr "d") (PyStr "people") (PyStr "out")
           (PyStr "3") main_info_types main_deid_content_list
           sample_world w' people _ 3 eq_refl eq_refl eq_refl
           ltac:(lia) Hrun).
Defined.

(** ** An empty response *)




(** ** No rollback *)

Lemma rows_of_length (o : option Table) : rows_of o = length (rows_list o).
Proof. destruct o; reflexivity. Qed.

Lemma committed_rows_load_events dest frames rest :
  committed_rows (load_events dest frames ++ rest) =
  (length (concat (map frame_rows frames)) + committed_rows rest)%nat.
Proof.
  induction frames as [| df frames IH]; [reflexivity |].
  cbn [load_events flat_map app map concat] in *.
  cbn [committed_rows]. fold (load_events dest frames).
  rewrite length_app.
  change (committed_rows (EvLoadResult true :: ?l)) with (committed_rows l).
  rewrite IH. lia.
Qed.

Lemma frames_rows_length frames :
  length (concat (map (fun df => tbl_rows (table_of_frame df)) frames)) =
  length (concat (map frame_rows frames)).
Proof.
  induction frames as [| df frames IH]; [reflexivity |].
  cbn [map concat]. now rewrite !length_app, IH, table_of_frame_rows.
Qed.

(** X10.  However a run ends once its source table is found, the
    destination then holds the rows it held when the query had run,
    plus the rows of every frame whose load went through: a run that
    fails part-way leaves the chunks loaded so far in the
    destination. *)
Theorem X10_loaded_chunks_stay
    service project dataset input_table output_table chunksize
    info_types deid_content_list w t :
  warehouse w !! source_id project dataset input_table = Some t ->
  let dest := destination_id project dataset output_table in
  let run := deidentify_table_replace_with_info_types service
               project dataset input_table output_table chunksize
               info_types deid_content_list w in
  exists evs,
    trace (fst run) = (trace w ++ evs)%list /\
    rows_of (warehouse (fst run) !! dest) =
      (rows_of (<[staging_id := t]> (warehouse w) !! dest) +
       committed_rows evs)%nat.
Proof.
  intros Hsrc dest run.
  pose proof (run_outcome service project dataset input_table output_table
                chunksize info_types deid_content_list w t Hsrc) as Hout.
  cbv zeta in Hout. fold run dest in Hout.
  destruct (service _) as [e | response].
  { rewrite Hout. eexists. split; [reflexivity |]. simpl. lia. }
  destruct (py_int chunksize) as [e | chunk_size].
  { rewrite Hout. eexists. split; [reflexivity |]. simpl. lia. }
  destruct (chunk_size =? 0).
  { rewrite Hout. eexists. split; [reflexivity |]. simpl. lia. }
  destruct Hout as (frames & failed & Htr & _ & Hrows & _ & Hres).
  cbn [trace] in Htr. rewrite <- app_assoc in Htr.
  eexists. split; [exact Htr |].
  rewrite !rows_of_length, Hrows, length_app, frames_rows_length.
  f_equal. cbn [calls_before_answer app committed_rows].
  rewrite committed_rows_load_events.
  assert (Hfailed : committed_rows failed = 0%nat).
  { destruct (snd run) as [e | u].
    - destruct Hres as (_ & [-> | (df & i & -> & _)]); reflexivity.
    - destruct Hres as (_ & ->). reflexivity. }
  rewrite Hfailed. lia.
Qed.

Lemma X10_witness :
  let run := main ragged_service (sample_args "out" "1") sample_world in
  snd run = inl ValueError /\
  rows_of (warehouse sample_world !! "p.d.out") = 1%nat /\
  rows_of (warehouse (fst run) !! "p.d.out") = 2%nat.
Proof.
  cbv zeta.
  destruct (X10_loaded_chunks_stay ragged_service
              (PyStr "p") (PyStr "d") (PyStr "people") (PyStr "out")
              (PyStr "1") main_info_types main_deid_content_list
              sample_world people eq_refl)
    as (evs & Htr & Hrows).
  split; [vm_compute; reflexivity |]. split; [reflexivity |].
  assert (Hevs : evs =
            trace (fst (deidentify_table_replace_with_info_types
                          ragged_service
                          (PyStr "p") (PyStr "d") (PyStr "people")
                          (PyStr "out") (PyStr "1")
                          main_info_types main_deid_content_list
                          sample_world)))
    by (symmetry; exact Htr).
  etransitivity; [exact Hrows |].
  rewrite Hevs. vm_compute. reflexivity.
Defined.

(** ** Where the loads go *)

(** X11.  Every load of a run goes to the table named by project,
    dataset and output table, and is submitted without a job
    configuration: the [WRITE_TRUNCATE] configuration built in each
    iteration is never handed to the client, so no load truncates. *)
Theorem X11_loads_target_destination_without_config
    service project dataset input_table output_table chunksize
    info_types deid_content_list w :
  exists evs,
    trace (fst (deidentify_table_replace_with_info_types service
                  project dataset input_table output_table chunksize
                  info_types deid_content_list w)) = (trace w ++ evs)%list /\
    forall df table_id cfg,
      In (EvLoad df table_id cfg) evs ->
      table_id = destination_id project dataset output_table /\
      cfg = None.
Proof.
  destruct (deidentify_table_replace_with_info_types _ _ _ _ _ _ _ _ _)
    as [w' r] eqn:H.
  apply run_cases in H. destruct H as (evs & Htr & Hcase).
  exists evs. split; [exact Htr |].
  intros df table_id cfg Hin.
  destruct (warehouse w !! source_id _ _ _) as [t |].
  - cbv zeta in Hcase. destruct (service _) as [e | response].
    + destruct Hcase as (-> & _ & _). simpl in Hin.
      destruct Hin as [[=] | [[=] | [[=] | [[=] | [[=] | []]]]]].
    + destruct Hcase as (loads & -> & _ & Hev & _). simpl in Hin.
      destruct Hin as [[=] | [[=] | [[=] | [[=] | [[=] | Hin]]]]].
      pose proof (proj1 (List.Forall_forall _ _) Hev _ Hin) as Hle.
      destruct Hle as (_ & Hid & Hcfg). auto.
  - destruct Hcase as (-> & _ & _). simpl in Hin.
    destruct Hin as [[=] | [[=] | []]].
Qed.

(** ** Running twice *)

Lemma successful_run_rows
    service project dataset input_table output_table chunksize
    info_types deid_content_list w w' t chunk_size :
  returns_as_many_rows service ->
  warehouse w !! source_id project dataset input_table = Some t ->
  py_int chunksize = inr chunk_size ->
  0 < chunk_size ->
  deidentify_table_replace_with_info_types service
    project dataset input_table output_table chunksize
    info_types deid_content_list w = (w', inr tt) ->
  let dest := destination_id project dataset output_table in
  rows_of (warehouse w' !! dest) =
    (rows_of (<[staging_id := t]> (warehouse w) !! dest) +
     length (tbl_rows t))%nat /\
  (forall table_id, table_id <> dest ->
     warehouse w' !! table_id =
     <[staging_id := t]> (warehouse w) !! table_id).
Proof.
  intros Hsvc Hsrc Hint Hpos Hrun dest. subst dest.
  apply run_cases in Hrun. destruct Hrun as (evs & _ & Hcase).
  rewrite Hsrc in Hcase. cbv zeta in Hcase.
  destruct (service _) as [e | response] eqn:Hresp.
  { now destruct Hcase as (_ & [=] & _). }
  destruct Hcase as (loads & _ & _ & _ & Hother & c & Hc & _ & _ & Hrows).
  rewrite Hint in Hc. injection Hc as <-.
  split; [| exact Hother].
  rewrite (Hrows Hpos), (Hsvc _ _ Hresp), request_for_rows, length_map.
  reflexivity.
Qed.

(** X12.  The run is not idempotent.  With a service that answers with
    as many rows as it was sent, a chunk size [C > 0], and a destination
    that is neither the source nor named like the staging table, two
    successful runs with the same arguments, one after the other, leave
    in the destination the rows it held at first and twice the [N] rows
    of the source. *)
Theorem X12_second_run_appends_again
    service project dataset input_table output_table chunksize
    info_types deid_content_list w w1 w2 t chunk_size :
  returns_as_many_rows service ->
  warehouse w !! source_id project dataset input_table = Some t ->
  py_int chunksize = inr chunk_size ->
  0 < chunk_size ->
  destination_id project dataset output_table <> staging_id ->
  destination_id project dataset output_table <>
    source_id project dataset input_table ->
  deidentify_table_replace_with_info_types service
    project dataset input_table output_table chunksize
    info_types deid_content_list w = (w1, inr tt) ->
  deidentify_table_replace_with_info_types service
    project dataset input_table output_table chunksize
    info_types deid_content_list w1 = (w2, inr tt) ->
  let dest := destination_id project dataset output_table in
  rows_of (warehouse w2 !! dest) =
    (rows_of (warehouse w !! dest) + 2 * length (tbl_rows t))%nat.
Proof.
  intros Hsvc Hsrc Hint Hpos Hstg Hne Hrun1 Hrun2 dest. subst dest.
  destruct (successful_run_rows service project dataset input_table
              output_table chunksize info_types deid_content_list
              w w1 t chunk_size Hsvc Hsrc Hint Hpos Hrun1)
    as [Hrows1 Hother1].
  assert (Hsrc1 : warehouse w1 !! source_id project dataset input_table
                  = Some t).
  { rewrite Hother1 by congruence.
    destruct (decide (staging_id = source_id project dataset input_table))
      as [<- | Hd].
    - apply lookup_insert_eq.
    - now rewrite lookup_insert_ne. }
  destruct (successful_run_rows service project dataset input_table
              output_table chunksize info_types deid_content_list
              w1 w2 t chunk_size Hsvc Hsrc1 Hint Hpos Hrun2)
    as [Hrows2 _].
  cbv zeta in Hrows1, Hrows2.
  rewrite Hrows2, lookup_insert_ne by congruence.
  rewrite Hrows1, lookup_insert_ne by congruence.
  lia.
Qed.

Lemma X12_witness :
  let first := main (masking_service ["b"]) (sample_args "out" "1")
                    sample_world in
  let second := main (masking_service ["b"]) (sample_args "out" "1")
                     (fst first) in
  rows_of (warehouse sample_world !! "p.d.out") = 1%nat /\
  rows_of (warehouse (fst second) !! "p.d.out") = 5%nat.
Proof.
  cbv zeta. split; [reflexivity |].
  destruct (main (masking_service ["b"]) (sample_args "out" "1") sample_world)
    as [w1 r1] eqn:Hrun1.
  assert (Hr1 : r1 = inr tt).
  { change r1 with (snd (w1, r1)). rewrite <- Hrun1. vm_compute. reflexivity. }
  subst r1. cbn [fst].
  destruct (main (masking_service ["b"]) (sample_args "out" "1") w1)
    as [w2 r2] eqn:Hrun2.
  assert (Hr2 : r2 = inr tt).
  { change r2 with (snd (w2, r2)). rewrite <- Hrun2.
    change w1 with (fst (w1, @inr exn unit tt)). rewrite <- Hrun1.
    vm_compute. reflexivity. }
  subst r2. cbn [fst].
  exact (X12_second_run_appends_again (masking_service ["b"])
           (PyStr "p") (PyStr "d") (PyStr "people") (PyStr "out")
           (PyStr "1") main_info_types main_deid_content_list
           sample_world w1 w2 people 1
           (masking_service_returns_rows ["b"]) eq_refl eq_refl ltac:(lia)
           ltac:(vm_compute; discriminate) ltac:(vm_compute; discriminate)
           Hrun1 Hrun2).
Defined.
